(** * Country directory: data models and renderer

    A shallow embedding of [src/collectors/models.py] (the pydantic data
    transfer objects) and of [src/renderer.py] (the table renderer), with
    the properties the specification states about them.

    Conventions of the embedding.
    - A Python [str] is a [string] holding the UTF-8 encoding of the text;
      [len] counts code points, as Python's [len] does.
    - A Python [int] is a [Z]; a [float] is an IEEE binary64 value, taken
      as [spec_float] (sign, mantissa, binary exponent).
    - A [dict] is an association list in insertion order, because the
      renderer iterates over [items()]; a [set] that is iterated is given
      by its iteration order, a [set] that is searched by its entries,
      each with the hash stored when the object was inserted.
    - An exception is the [Raise] case of [result].
    - The models are pydantic (1.x) [BaseModel] classes.  The part of
      pydantic's model construction that the models rely on (required and
      optional fields, constrained strings, class validators, attribute
      assignment under the default [Config]) is in module [Pydantic]. *)

From Stdlib Require Import ZArith NArith QArith Qround String Ascii Lia.
From Stdlib Require Import SpecFloat.
From stdpp Require Import gmap strings list.

Local Open Scope string_scope.

(** * Python values *)

Module Py.

(** Exceptions raised by the modelled code. *)
Inductive error_type :=
| MissingError                      (* "field required" *)
| NoneIsNotAllowedError             (* "none is not an allowed value" *)
| AnyStrMinLengthError (limit : nat)
| AnyStrMaxLengthError (limit : nat).

(** One entry of a pydantic [ValidationError]: location and error. *)
Definition ErrorWrapper : Type := string * error_type.

Inductive exn :=
| ValidationError (errors : list ErrorWrapper)
| IndexError
| TypeError
| InvalidOperation
| ValueError.

Inductive result (A : Type) :=
| Ok (a : A)
| Raise (e : exn).
Arguments Ok {A} a.
Arguments Raise {A} e.

Definition bind {A B} (r : result A) (k : A -> result B) : result B :=
  match r with
  | Ok a => k a
  | Raise e => Raise e
  end.

Definition is_ok {A} (r : result A) : bool :=
  match r with Ok _ => true | Raise _ => false end.

(** A keyword argument of a call: left out, passed as [None], or passed
    with a value. *)
Inductive arg (A : Type) :=
| Omitted
| PyNone
| Value (a : A).
Arguments Omitted {A}.
Arguments PyNone {A}.
Arguments Value {A} a.

(** ** Strings *)

(** A byte [10xxxxxx] continues a UTF-8 sequence and starts no code
    point. *)
Definition is_continuation (c : ascii) : bool :=
  let n := N_of_ascii c in (128 <=? n)%N && (n <? 192)%N.

Fixpoint len (s : string) : nat :=
  match s with
  | EmptyString => 0
  | String c s' => if is_continuation c then len s' else S (len s')
  end.

(** [sep.join(parts)] *)
Fixpoint join (sep : string) (parts : list string) : string :=
  match parts with
  | [] => ""
  | [p] => p
  | p :: ps => p +:+ sep +:+ join sep ps
  end.

(** [s.replace(old, new)] for a one-character [old]. *)
Fixpoint replace (old : ascii) (new : string) (s : string) : string :=
  match s with
  | EmptyString => EmptyString
  | String c s' =>
      if Ascii.eqb c old then new +:+ replace old new s'
      else String c (replace old new s')
  end.

(** ** Integers as text *)

Definition digit_char (d : N) : ascii := ascii_of_N (48 + d).

(** Decimal digits of [n], most significant first, in front of [acc].
    [fuel] bounds the number of digits; the number of bits of [n] is
    enough. *)
Fixpoint digits_aux (fuel : nat) (n : N) (acc : list ascii) : list ascii :=
  let acc' := digit_char (n mod 10) :: acc in
  match fuel with
  | O => acc'
  | S fuel' => if (n <? 10)%N then acc' else digits_aux fuel' (n / 10) acc'
  end.

Definition digits (n : N) : list ascii :=
  digits_aux (N.to_nat (N.size n)) n [].

(** [c.isdigit()] for an ASCII character *)
Definition isdigit (c : ascii) : bool :=
  let n := N_of_ascii c in (48 <=? n)%N && (n <=? 57)%N.

(** [int(s)] for a string of decimal digits *)
Definition digit_value (c : ascii) : N := N_of_ascii c - 48.

Definition int_of_digits (l : list ascii) : N :=
  fold_left (fun acc c => 10 * acc + digit_value c)%N l 0%N.

(** [str(n)] for [n >= 0] *)
Definition str_N (n : N) : string := string_of_list_ascii (digits n).

(** [str(z)] *)
Definition str_int (z : Z) : string :=
  if (z <? 0)%Z then "-" +:+ str_N (Z.abs_N z) else str_N (Z.abs_N z).

End Py.
Export Py.

(** [result] is a monad; [x ← r; k] is stdpp's notation for [bind]. *)
#[global] Instance result_ret : MRet result := @Ok.
#[global] Instance result_bind : MBind result :=
  fun A B k r => Py.bind r k.

(** * The part of pydantic the models use *)

Module Pydantic.

(** A field's validation gives its value, or the errors found there.
    [validate_model] goes through every field and gathers the errors of
    all of them. *)
Definition validated (A : Type) : Type := list ErrorWrapper + A.

Definition ap {A B} (f : validated (A -> B)) (x : validated A) : validated B :=
  match f, x with
  | inr f', inr x' => inr (f' x')
  | inl e1, inl e2 => inl (e1 ++ e2)%list
  | inl e1, inr _ => inl e1
  | inr _, inl e2 => inl e2
  end.

(** Calling the class with the keyword arguments: [ValidationError] is
    raised when a field failed. *)
Definition construct {A} (v : validated A) : result A :=
  match v with
  | inr a => Ok a
  | inl errors => Raise (ValidationError errors)
  end.

(** A field annotated [T]: required, and [None] is not allowed. *)
Definition required_field {A B} (loc : string)
    (validators : A -> error_type + B) (v : arg A) : validated B :=
  match v with
  | Omitted => inl [(loc, MissingError)]
  | PyNone => inl [(loc, NoneIsNotAllowedError)]
  | Value a =>
      match validators a with
      | inl e => inl [(loc, e)]
      | inr b => inr b
      end
  end.

(** A field annotated [Optional[T]] with no default: not required, the
    default is [None].  [post] is the class validator of the field
    (declared with [@validator], neither [pre] nor [each_item]); it is
    given the value, also when the value is [None].  When the argument
    is left out the default is stored as it is, and the class validator
    runs only if it was declared with [always=True]. *)
Definition optional_field {A B} (loc : string)
    (validators : A -> error_type + B)
    (post : option B -> option B) (always : bool)
    (v : arg A) : validated (option B) :=
  match v with
  | Omitted => inr (if always then post None else None)
  | PyNone => inr (post None)
  | Value a =>
      match validators a with
      | inl e => inl [(loc, e)]
      | inr b => inr (post (Some b))
      end
  end.

(** The validator of a value that already has the annotated type. *)
Definition accept {A} (a : A) : error_type + A := inr a.

(** [Field(min_length=.., max_length=..)] on a [str]. *)
Definition constr_length_validator (min_length max_length : nat)
    (v : string) : error_type + string :=
  let v_len := len v in
  if (v_len <? min_length)%nat then inl (AnyStrMinLengthError min_length)
  else if (max_length <? v_len)%nat then inl (AnyStrMaxLengthError max_length)
  else inr v.

(** The settings of [Config] that govern attribute assignment. *)
Record Config := {
  allow_mutation : bool;
  frozen : bool;
  validate_assignment : bool
}.

(** The values of [BaseModel.Config]; a model that declares no [Config]
    of its own has these. *)
Definition default_config : Config :=
  {| allow_mutation := true; frozen := false; validate_assignment := false |}.

(** The checks of [BaseModel.__setattr__] before the value is stored:
    the name must be a field, and the model must allow mutation. *)
Definition setattr_allowed (config : Config) (is_field : bool) : result unit :=
  if negb is_field then Raise ValueError
  else if negb (allow_mutation config) || frozen config then Raise TypeError
  else Ok tt.

End Pydantic.
Export Pydantic.

Notation "f <&> x" := (Pydantic.ap f x) (at level 52, left associativity).

(** * Builtins whose result depends on the interpreter or the platform *)

(** [str(x)] of a float is its shortest round-trip representation,
    [strftime] is the C library's, and the hash of a string is salted per
    process.  The renderer and [__hash__] only pass these results on, so
    they are operations of an interface. *)
Class Builtins := {
  float_str : spec_float -> string;
  hash_str : string -> Z;
  hash_type : string -> Z;
  hash_tuple : list Z -> Z
}.

Record datetime := {
  year : Z; month : Z; day : Z; hour : Z; minute : Z; second : Z
}.

Class Clib := {
  strftime : datetime -> string -> string
}.

(** * collectors/models.py *)

Module Models.

(** ** HashableBaseModel *)

(** An instance of a hashable model: the object's identity, the name of
    its class and its [__dict__] (field name and value, in the order of
    the fields; the hashable models have [str] fields only). *)
Record instance := {
  id : positive;
  type : string;
  __dict__ : list (string * string)
}.

(** [hash((type(self),) + tuple(self.__dict__.values()))] *)
Definition __hash__ `{Builtins} (self : instance) : Z :=
  hash_tuple (hash_type (type self) :: map hash_str (map snd (__dict__ self))).

(** [BaseModel.__eq__]: [self.dict() == other.dict()].  Two dicts are
    equal when they have the same keys with equal values. *)
Definition dict_get (d : list (string * string)) (k : string) : option string :=
  snd <$> List.find (fun kv => String.eqb (fst kv) k) d.

Definition dict_subset (d1 d2 : list (string * string)) : bool :=
  forallb (fun kv =>
             match dict_get d2 (fst kv) with
             | Some v => String.eqb v (snd kv)
             | None => false
             end) d1.

Definition __eq__ (self other : instance) : bool :=
  dict_subset (__dict__ self) (__dict__ other)
  && dict_subset (__dict__ other) (__dict__ self).

#[global] Instance instance_eq_dec : EqDecision instance.
Proof. solve_decision. Defined.

(** [x is y]: the same object, with its identity, class and state. *)
Definition is_ (x y : instance) : bool := bool_decide (x = y).


(** [x in s]: the hash of [x] is taken once and compared with the hash
    stored in the entry; only an entry with that hash is compared with
    [x], and matches when it is [x] itself or equal to [x]. *)
Definition set_contains `{Builtins} (s : list (Z * instance)) (x : instance) : bool :=
  existsb (fun e => (e.1 =? __hash__ x)%Z && (is_ e.2 x || __eq__ e.2 x)) s.



(** ** LocationDTO *)

Record LocationDTO := {
  capital : string;
  alpha2code : string    (* Field(min_length=2, max_length=2) *)
}.

Definition LocationDTO_new (capital alpha2code : arg string) : result LocationDTO :=
  construct
    (inr Build_LocationDTO
       <&> required_field "capital" accept capital
       <&> required_field "alpha2code" (constr_length_validator 2 2) alpha2code).

(** The object a constructed [LocationDTO] is, at identity [i]. *)
Definition LocationDTO_instance (i : positive) (d : LocationDTO) : instance :=
  {| id := i; type := "LocationDTO";
     __dict__ := [("capital", capital d); ("alpha2code", alpha2code d)] |}.

(** [setattr(self, name, value)]: [LocationDTO] and its base declare no
    [Config], so the default one applies and the value is stored without
    validation. *)
Definition LocationDTO_setattr (self : LocationDTO) (name value : string)
  : result LocationDTO :=
  let is_field := String.eqb name "capital" || String.eqb name "alpha2code" in
  _ ← setattr_allowed default_config is_field;
  if String.eqb name "capital"
  then Ok {| capital := value; alpha2code := alpha2code self |}
  else Ok {| capital := capital self; alpha2code := value |}.

(** ** CurrencyInfoDTO, LanguagesInfoDTO *)

Record CurrencyInfoDTO := { code : string }.

Record LanguagesInfoDTO := {
  name : string;
  native_name : string
}.

(** ** CountryDTO *)

Record CountryDTO := {
  country_capital : string;
  country_alpha2code : string;
  alt_spellings : list string;
  currencies : list CurrencyInfoDTO;      (* set, in iteration order *)
  flag : string;
  languages : list LanguagesInfoDTO;      (* set, in iteration order *)
  country_name : string;
  population : Z;
  subregion : string;
  capital_latitude : spec_float;
  capital_longitude : spec_float;
  capital_area : option spec_float;
  timezones : list string
}.

(** ** WeatherInfoDTO *)

Record WeatherInfoDTO := {
  temp : spec_float;
  pressure : Z;
  humidity : Z;
  wind_speed : spec_float;
  description : string;
  visibility : spec_float;
  timezone : Z;
  date_time : datetime
}.

(** ** NewsDTO *)

Record NewsDTO := {
  title : string;
  author : option string;
  news_description : string;
  source : string;
  url : string;
  published_at : datetime
}.

(** The class validator of [author]. *)
Definition validate_author (value : option string) : option string :=
  match value with
  | None => Some "unknown"
  | Some s => if String.eqb s "" then Some "unknown" else Some s
  end.

Definition NewsDTO_new (title : arg string) (author : arg string)
    (description source url : arg string) (published_at : arg datetime)
  : result NewsDTO :=
  construct
    (inr Build_NewsDTO
       <&> required_field "title" accept title
       <&> optional_field "author" accept validate_author false author
       <&> required_field "description" accept description
       <&> required_field "source" accept source
       <&> required_field "url" accept url
       <&> required_field "published_at" accept published_at).

(** ** LocationInfoDTO *)

Record LocationInfoDTO := {
  location : CountryDTO;
  weather : WeatherInfoDTO;
  currency_rates : list (string * spec_float);
  news : option (list NewsDTO)
}.

Definition LocationInfoDTO_new (location : arg CountryDTO)
    (weather : arg WeatherInfoDTO)
    (currency_rates : arg (list (string * spec_float)))
    (news : arg (list NewsDTO)) : result LocationInfoDTO :=
  construct
    (inr Build_LocationInfoDTO
       <&> required_field "location" accept location
       <&> required_field "weather" accept weather
       <&> required_field "currency_rates" accept currency_rates
       <&> optional_field "news" accept (fun v => v) false news).

End Models.
Export Models.

(** * The part of the [decimal] module the renderer uses *)

Module Dec.

(** A [Decimal]: [(-1)^sign * coeff * 10^exp], an infinity or a NaN.
    [coeff] is the number whose digits are [_int]. *)
Inductive Decimal :=
| Finite (sign : bool) (coeff : N) (exp : Z)
| Infinity (sign : bool)
| NaN.

Inductive rounding_mode := ROUND_HALF_UP | ROUND_HALF_EVEN.

Record Context := { prec : Z; Emin : Z; Emax : Z }.

(** The context of a thread that has not changed it. *)
Definition DefaultContext : Context :=
  {| prec := 28; Emin := -999999; Emax := 999999 |}.

Definition Etiny (c : Context) : Z := Emin c - prec c + 1.

(** [len(self._int)] *)
Definition ndigits (coeff : N) : Z := Z.of_nat (length (digits coeff)).

(** [self.adjusted()] *)
Definition adjusted (coeff : N) (exp : Z) : Z := exp + ndigits coeff - 1.

(** [float.as_integer_ratio] of [m * 2^e]: the fraction in lowest
    terms, found by taking the factors two out of the mantissa. *)
Fixpoint strip_twos (m : positive) (e : Z) : positive * Z :=
  match m with
  | xO m' => if (e <? 0)%Z then strip_twos m' (e + 1) else (m, e)
  | _ => (m, e)
  end.

Definition as_integer_ratio (m : positive) (e : Z) : N * N :=
  let '(m', e') := strip_twos m e in
  if (0 <=? e')%Z then (Npos m' * 2 ^ Z.to_N e', 1)%N
  else (Npos m', 2 ^ Z.to_N (- e'))%N.

(** [Decimal(f)] for a float [f]: the exact value of [f]. *)
Definition from_float (f : spec_float) : Decimal :=
  match f with
  | S754_nan => NaN
  | S754_infinity s => Infinity s
  | S754_zero s => Finite s 0 0
  | S754_finite s m e =>
      let '(n, d) := as_integer_ratio m e in
      let k := N.log2 d in              (* d.bit_length() - 1 *)
      Finite s (n * 5 ^ k) (- Z.of_N k)
  end.

(** [self._rescale(exp, rounding)] of a finite number.  When digits are
    dropped, [k] of them: the first dropped digit is
    [(coeff / 10^(k-1)) mod 10] and the digits kept are [coeff / 10^k];
    half-up rounds up when the first dropped digit is one of 5..9. *)
Definition _rescale (sign : bool) (coeff : N) (e exp : Z)
    (rounding : rounding_mode) : Decimal :=
  if (coeff =? 0)%N then Finite sign 0 exp
  else if (exp <=? e)%Z then Finite sign (coeff * 10 ^ Z.to_N (e - exp)) exp
  else
    let k := Z.to_N (exp - e) in
    let kept := (coeff / 10 ^ k)%N in
    let dropped := (coeff mod 10 ^ k)%N in
    let first := (dropped / 10 ^ (k - 1))%N in
    let half := (5 * 10 ^ (k - 1))%N in
    let changed :=
      match rounding with
      | ROUND_HALF_UP => (5 <=? first)%N
      | ROUND_HALF_EVEN =>
          (half <? dropped)%N || ((dropped =? half)%N && N.odd kept)
      end in
    Finite sign (if changed then kept + 1 else kept)%N exp.

(** [self.quantize(exp, rounding)] in context [ctx], which traps
    [InvalidOperation]. *)
Definition quantize (ctx : Context) (self exp : Decimal)
    (rounding : rounding_mode) : result Decimal :=
  match self, exp with
  | NaN, _ | _, NaN => Ok NaN
  | Infinity s, Infinity _ => Ok (Infinity s)
  | Infinity _, Finite _ _ _ | Finite _ _ _, Infinity _ => Raise InvalidOperation
  | Finite s c e, Finite _ _ exp_e =>
      if negb ((Etiny ctx <=? exp_e)%Z && (exp_e <=? Emax ctx)%Z)
      then Raise InvalidOperation
      else if (c =? 0)%N then Ok (Finite s 0 exp_e)
      else if (Emax ctx <? adjusted c e)%Z then Raise InvalidOperation
      else if (prec ctx <? adjusted c e - exp_e + 1)%Z then Raise InvalidOperation
      else
        match _rescale s c e exp_e rounding with
        | Finite s' c' e' =>
            if (Emax ctx <? adjusted c' e')%Z then Raise InvalidOperation
            else if (prec ctx <? ndigits c')%Z then Raise InvalidOperation
            else Ok (Finite s' c' e')
        | other => Ok other
        end
  end.

(** ["%+d" % z] *)
Definition signed_int (z : Z) : string :=
  if (z <? 0)%Z then str_int z else "+" +:+ str_int z.

Definition zeros (n : nat) : string := string_of_list_ascii (List.repeat "0"%char n).

(** [str(d)] *)
Definition Decimal_str (d : Decimal) : string :=
  match d with
  | NaN => "NaN"
  | Infinity s => (if s then "-" else "") +:+ "Infinity"
  | Finite s c e =>
      let _int := digits c in
      let n := Z.of_nat (length _int) in
      let leftdigits := (e + n)%Z in
      let dotplace :=
        if (e <=? 0)%Z && (-6 <? leftdigits)%Z then leftdigits else 1%Z in
      let intpart :=
        if (dotplace <=? 0)%Z then "0"
        else if (n <=? dotplace)%Z
             then string_of_list_ascii _int +:+ zeros (Z.to_nat (dotplace - n))
             else string_of_list_ascii (take (Z.to_nat dotplace) _int) in
      let fracpart :=
        if (dotplace <=? 0)%Z
        then "." +:+ zeros (Z.to_nat (- dotplace)) +:+ string_of_list_ascii _int
        else if (n <=? dotplace)%Z then ""
             else "." +:+ string_of_list_ascii (drop (Z.to_nat dotplace) _int) in
      let exp :=
        if (leftdigits =? dotplace)%Z then ""
        else "E" +:+ signed_int (leftdigits - dotplace) in
      (if s then "-" else "") +:+ intpart +:+ fracpart +:+ exp
  end.

End Dec.
Export Dec.

(** * renderer.py *)

Module Renderer.

(** ** PrettyTable *)

(** A value put in a table: text, or a float that the table formats
    when it is printed. *)
Inductive cell :=
| CStr (s : string)
| CFloat (f : spec_float).

Record PrettyTable := {
  field_names : list string;
  rows : list (list cell);
  _max_width : list (string * Z);
  padding_width : Z
}.

(** [PrettyTable()]: no fields, no rows, padding 1. *)
Definition PrettyTable_new : PrettyTable :=
  {| field_names := []; rows := []; _max_width := []; padding_width := 1 |}.

Definition set_field_names (names : list string) (t : PrettyTable) : PrettyTable :=
  {| field_names := names; rows := rows t;
     _max_width := _max_width t; padding_width := padding_width t |}.

Definition set_max_width (w : list (string * Z)) (t : PrettyTable) : PrettyTable :=
  {| field_names := field_names t; rows := rows t;
     _max_width := w; padding_width := padding_width t |}.

(** [table.add_row(row)]: the row must have one value per field (a
    table without fields gets the names "Field 1", "Field 2", ...); the
    row is appended after the rows already there. *)
Definition add_row (row : list cell) (t : PrettyTable) : result PrettyTable :=
  let given := negb (length (field_names t) =? 0)%nat in
  if given && negb (length row =? length (field_names t))%nat
  then Raise ValueError
  else
    let names :=
      if given then field_names t
      else map (fun n => "Field " +:+ str_N (N.of_nat (S n))) (seq 0 (length row)) in
    Ok {| field_names := names; rows := (rows t ++ [row])%list;
          _max_width := _max_width t; padding_width := padding_width t |}.

(** The value of a column in a row, by the column's name. *)
Fixpoint column (names : list string) (row : list cell) (col : string)
  : option cell :=
  match names, row with
  | n :: names', c :: row' =>
      if String.eqb n col then Some c else column names' row' col
  | _, _ => None
  end.

(** The values of a column read down the table, from the first row to
    the last. *)
Definition column_cells (t : PrettyTable) (col : string) : list (option cell) :=
  map (fun row => column (field_names t) row col) (rows t).

(** ** Builtins used by the renderer *)

(** [seq[0]] *)
Definition first_item {A} (seq : list A) : result A :=
  match seq with
  | x :: _ => Ok x
  | [] => Raise IndexError
  end.

(** [for x in obj]: [None] is not iterable. *)
Definition iterate {A} (obj : option (list A)) : result (list A) :=
  match obj with
  | Some l => Ok l
  | None => Raise TypeError
  end.

(** [str(x)] of an optional float *)
Definition optional_float_str `{Builtins} (x : option spec_float) : string :=
  match x with
  | Some f => float_str f
  | None => "None"
  end.

(** [str(x)] of an optional string *)
Definition optional_str (x : option string) : string :=
  match x with
  | Some s => s
  | None => "None"
  end.

(** Thousands grouping of a digit string given least significant digit
    first: a comma after every third digit that has a digit after it. *)
Fixpoint group_rev (ds : list ascii) : list ascii :=
  match ds with
  | a :: b :: c :: ((_ :: _) as rest) => a :: b :: c :: ","%char :: group_rev rest
  | _ => ds
  end.

(** ["{:,}".format(n)] *)
Definition format_thousands (n : Z) : string :=
  let body := string_of_list_ascii (rev (group_rev (rev (digits (Z.abs_N n))))) in
  if (n <? 0)%Z then "-" +:+ body else body.

(** Evaluate [f] on the items in order; the first exception ends it. *)
Fixpoint traverse {A B} (f : A -> result B) (l : list A) : result (list B) :=
  match l with
  | [] => Ok []
  | x :: l' => y ← f x; ys ← traverse f l'; Ok (y :: ys)
  end.

(** ** Renderer *)

Definition _format_languages (location_info : LocationInfoDTO) : string :=
  join ", "
    (map (fun item => name item +:+ " (" +:+ native_name item +:+ ")")
         (languages (location location_info))).

Definition _format_population (location_info : LocationInfoDTO) : string :=
  replace ","%char "." (format_thousands (population (location location_info))).

(** One item of the currency list:
    [f"{currency} = {Decimal(rates).quantize(exp=Decimal('.01'), rounding=ROUND_HALF_UP)} руб."] *)
Definition format_rate (item : string * spec_float) : result string :=
  let '(currency, rates) := item in
  d ← quantize DefaultContext (from_float rates) (Finite false 1 (-2)) ROUND_HALF_UP;
  Ok (currency +:+ " = " +:+ Decimal_str d +:+ " руб.").

Definition _format_currency_rates (location_info : LocationInfoDTO)
  : result string :=
  parts ← traverse format_rate (currency_rates location_info);
  Ok (join ", " parts).

Definition info_field_names : list string :=
  [ "Страна"; "Столица"; "Широта"; "Долгота"; "Регион";
    "Население страны"; "Языки"; "Площадь"; "Часовой пояс"; "Курсы валют" ].

Definition weather_field_names : list string :=
  [ "Температура"; "Описание"; "Видимость"; "Скорость ветра";
    "Время получения данных" ].

Definition news_field_names : list string :=
  [ "Источник"; "Название"; "Автор"; "Ссылка"; "Описание"; "Дата публикации" ].

(** The row of one article in the news table. *)
Definition news_row `{Clib} (article : NewsDTO) : list cell :=
  [ CStr (source article);
    CStr (title article);
    CStr (optional_str (author article));
    CStr (url article);
    CStr (news_description article);
    CStr (strftime (published_at article) "%d.%m.%Y %H:%M") ].

(** The loop [for article in news: news_table.add_row(...)]. *)
Fixpoint add_news_rows `{Clib} (articles : list NewsDTO) (t : PrettyTable)
  : result PrettyTable :=
  match articles with
  | [] => Ok t
  | article :: rest => t' ← add_row (news_row article) t; add_news_rows rest t'
  end.

(** The row of the location table, given the first timezone and the
    formatted currency rates. *)
Definition info_row `{Builtins} (location_info : LocationInfoDTO)
    (tz rates_text : string) : list cell :=
  let loc := location location_info in
  [ CStr (country_name loc);
    CStr (country_capital loc);
    CFloat (capital_latitude loc);
    CFloat (capital_longitude loc);
    CStr (subregion loc);
    CStr (_format_population location_info +:+ " чел.");
    CStr (_format_languages location_info);
    CStr (optional_float_str (capital_area loc) +:+ " кв. км.");
    CStr tz;
    CStr rates_text ].

(** The row of the weather table. *)
Definition weather_row `{Builtins} `{Clib} (location_info : LocationInfoDTO)
  : list cell :=
  let w := weather location_info in
  [ CStr (float_str (temp w) +:+ " °C");
    CStr (description w);
    CStr (float_str (visibility w) +:+ " м.");
    CStr (float_str (wind_speed w) +:+ " м/с.");
    CStr (strftime (date_time w) "%d.%m.%Y %H:%M") ].

(** [PrettyTable(border=True, preserve_internal_border=True, padding_width=5)] *)
Definition news_table_new : PrettyTable :=
  {| field_names := []; rows := []; _max_width := []; padding_width := 5 |}.

(** The values of the location row are evaluated in the order of the
    list: the first timezone, then the currency rates. *)
Definition render `{Builtins} `{Clib} (location_info : LocationInfoDTO)
  : result (PrettyTable * string * PrettyTable * string * PrettyTable) :=
  let info_table := set_field_names info_field_names PrettyTable_new in
  tz ← first_item (timezones (location location_info));
  rates_text ← _format_currency_rates location_info;
  info_table ← add_row (info_row location_info tz rates_text) info_table;
  let weather_table := set_field_names weather_field_names PrettyTable_new in
  weather_table ← add_row (weather_row location_info) weather_table;
  let news_table := set_field_names news_field_names news_table_new in
  let news_table :=
    set_max_width [("Название", 25%Z); ("Ссылка", 25%Z); ("Описание", 45%Z)]
                  news_table in
  articles ← iterate (news location_info);
  news_table ← add_news_rows articles news_table;
  Ok (info_table, "Погода:", weather_table, "Новости", news_table).

End Renderer.
Export Renderer.

(** * LocationDTO as a key *)

(** A [LocationDTO] used as the key of a dict: keys are told apart by
    their [capital] and [alpha2code]. *)
Module LocationKey.

#[global] Instance LocationDTO_eq_dec : EqDecision LocationDTO.
Proof. solve_decision. Defined.

#[global] Instance LocationDTO_countable : Countable LocationDTO :=
  inj_countable'
    (fun d => (capital d, alpha2code d))
    (fun p => {| capital := p.1; alpha2code := p.2 |})
    (fun d => match d with Build_LocationDTO _ _ => eq_refl end).

End LocationKey.
Export LocationKey.

(** * Rounding to two decimals, as the specification words it *)

(** The definitions of this module follow the wording of the
    specification ("rate rounded to 2 decimal places with half-up
    rounding"); they are what the renderer's currency text is compared
    with. *)
Module RoundingSpec.

Definition is_finite (f : spec_float) : bool :=
  match f with
  | S754_zero _ | S754_finite _ _ _ => true
  | S754_infinity _ | S754_nan => false
  end.

Definition sign_of (f : spec_float) : bool :=
  match f with
  | S754_zero s | S754_finite s _ _ | S754_infinity s => s
  | S754_nan => false
  end.

(** The magnitude of a finite float, as a rational number. *)
Definition magnitude (f : spec_float) : Q :=
  match f with
  | S754_finite _ m e =>
      if (0 <=? e)%Z then inject_Z (Zpos m * 2 ^ e)
      else Zpos m # (2 ^ Z.to_pos (- e))
  | _ => 0
  end.

(** The number of hundredths nearest to the magnitude, a half going up:
    [floor (100 * |f| + 1/2)]. *)
Definition half_up_hundredths (f : spec_float) : N :=
  Z.to_N (Qfloor (100 * magnitude f + (1 # 2))).

(** The rate rounded to two decimal places: that many hundredths, with
    the sign of the rate. *)
Definition two_decimals_half_up (rate : spec_float) : Decimal :=
  Finite (sign_of rate) (half_up_hundredths rate) (-2).

(** The text of one entry: "<code> = <rounded rate> руб." *)
Definition rate_text (item : string * spec_float) : string :=
  item.1 +:+ " = " +:+ Decimal_str (two_decimals_half_up item.2) +:+ " руб.".

(** The rates the default decimal context can round to hundredths: the
    finite ones whose rounded value has at most 28 digits. *)
Definition roundable (rate : spec_float) : Prop :=
  is_finite rate = true /\ (half_up_hundredths rate < 10 ^ 28)%N.

End RoundingSpec.
Export RoundingSpec.

(** * The other models of collectors/models.py *)

Module MoreModels.

(** ** CurrencyInfoDTO, LanguagesInfoDTO as objects *)

Definition CurrencyInfoDTO_new (code : arg string) : result CurrencyInfoDTO :=
  construct (inr Build_CurrencyInfoDTO <&> required_field "code" accept code).

Definition CurrencyInfoDTO_instance (i : positive) (d : CurrencyInfoDTO) : instance :=
  {| id := i; type := "CurrencyInfoDTO"; __dict__ := [("code", code d)] |}.

Definition LanguagesInfoDTO_new (name native_name : arg string)
  : result LanguagesInfoDTO :=
  construct
    (inr Build_LanguagesInfoDTO
       <&> required_field "name" accept name
       <&> required_field "native_name" accept native_name).

Definition LanguagesInfoDTO_instance (i : positive) (d : LanguagesInfoDTO) : instance :=
  {| id := i; type := "LanguagesInfoDTO";
     __dict__ := [("name", name d); ("native_name", native_name d)] |}.

(** An object of one of the three classes that derive from
    [HashableBaseModel]. *)
Inductive hashable_dto : instance -> Prop :=
| hashable_location i d : hashable_dto (LocationDTO_instance i d)
| hashable_currency i d : hashable_dto (CurrencyInfoDTO_instance i d)
| hashable_language i d : hashable_dto (LanguagesInfoDTO_instance i d).

(** ** CountryDTO *)

Definition CountryDTO_new
    (capital alpha2code : arg string) (alt_spellings : arg (list string))
    (currencies : arg (list CurrencyInfoDTO)) (flag : arg string)
    (languages : arg (list LanguagesInfoDTO)) (name : arg string)
    (population : arg Z) (subregion : arg string)
    (capital_latitude capital_longitude capital_area : arg spec_float)
    (timezones : arg (list string)) : result CountryDTO :=
  construct
    (inr Build_CountryDTO
       <&> required_field "capital" accept capital
       <&> required_field "alpha2code" accept alpha2code
       <&> required_field "alt_spellings" accept alt_spellings
       <&> required_field "currencies" accept currencies
       <&> required_field "flag" accept flag
       <&> required_field "languages" accept languages
       <&> required_field "name" accept name
       <&> required_field "population" accept population
       <&> required_field "subregion" accept subregion
       <&> required_field "capital_latitude" accept capital_latitude
       <&> required_field "capital_longitude" accept capital_longitude
       <&> optional_field "capital_area" accept (fun v => v) false capital_area
       <&> required_field "timezones" accept timezones).

(** ** CurrencyRatesDTO *)

Record CurrencyRatesDTO := {
  base : string;
  date : string;
  rates : list (string * spec_float)
}.

Definition CurrencyRatesDTO_new (base date : arg string)
    (rates : arg (list (string * spec_float))) : result CurrencyRatesDTO :=
  construct
    (inr Build_CurrencyRatesDTO
       <&> required_field "base" accept base
       <&> required_field "date" accept date
       <&> required_field "rates" accept rates).

(** ** WeatherInfoDTO *)

Definition WeatherInfoDTO_new
    (temp : arg spec_float) (pressure humidity : arg Z)
    (wind_speed : arg spec_float) (description : arg string)
    (visibility : arg spec_float) (timezone : arg Z)
    (date_time : arg datetime) : result WeatherInfoDTO :=
  construct
    (inr Build_WeatherInfoDTO
       <&> required_field "temp" accept temp
       <&> required_field "pressure" accept pressure
       <&> required_field "humidity" accept humidity
       <&> required_field "wind_speed" accept wind_speed
       <&> required_field "description" accept description
       <&> required_field "visibility" accept visibility
       <&> required_field "timezone" accept timezone
       <&> required_field "date_time" accept date_time).

(** ** Reading the outcome of a construction *)

(** What an argument of a required field of the annotated type adds to
    the validation error. *)
Definition required_errors {A} (loc : string) (x : arg A) : list ErrorWrapper :=
  match x with
  | Omitted => [(loc, MissingError)]
  | PyNone => [(loc, NoneIsNotAllowedError)]
  | Value _ => []
  end.

(** The value stored for an optional field without validator. *)
Definition stored_optional {A} (x : arg A) : option A :=
  match x with
  | Value a => Some a
  | Omitted | PyNone => None
  end.

End MoreModels.
Export MoreModels.

(** * Reading the renderer's texts *)

Module Texts.


(** A rate the currency text can be written for: a NaN (written as it
    is) or a rate that can be rounded. *)
Definition formattable (rate : spec_float) : Prop :=
  rate = S754_nan \/ roundable rate.

(** The text of one entry of the currency list, NaN included. *)
Definition entry_text (item : string * spec_float) : string :=
  match item.2 with
  | S754_nan => item.1 +:+ " = NaN руб."
  | _ => rate_text item
  end.

End Texts.
Export Texts.

(** * Sample data *)

(** The values of the examples in the docstrings of [models.py]. *)

Definition sample_published_at : datetime :=
  {| year := 2023; month := 3; day := 30; hour := 12; minute := 42; second := 34 |}.

Definition sample_date_time : datetime :=
  {| year := 2023; month := 3; day := 30; hour := 12; minute := 23; second := 34 |}.

(** [0.016503], the nearest binary64 value *)
Definition rate_0_016503 : spec_float := S754_finite false 4756665897631699 (-58).

(** [1e30], the nearest binary64 value *)
Definition rate_1e30 : spec_float := S754_finite false 7105427357601002 47.

Definition sample_country : CountryDTO :=
  {| country_capital := "Mariehamn";
     country_alpha2code := "AX";
     alt_spellings := ["AX"; "Aaland"; "Aland"; "Ahvenanmaa"];
     currencies := [ {| code := "EUR" |} ];
     flag := "http://assets.promptapi.com/flags/AX.svg";
     languages := [ {| name := "Swedish"; native_name := "svenska" |} ];
     country_name := "Åland Islands";
     population := 28875;
     subregion := "Northern Europe";
     capital_latitude := S754_finite false 5611147365731585 (-48);   (* 19.9348 *)
     capital_longitude := S754_finite false 8457943058936653 (-47);  (* 60.0973 *)
     capital_area := Some (S754_finite false 6948913487544320 (-42)); (* 1580.0 *)
     timezones := ["UTC+02:00"] |}.

Definition sample_weather : WeatherInfoDTO :=
  {| temp := S754_finite false 7836263351624663 (-49);               (* 13.92 *)
     pressure := 1023;
     humidity := 54;
     wind_speed := S754_finite false 5212916568681349 (-50);         (* 4.63 *)
     description := "scattered clouds";
     visibility := S754_finite false 5497558138880000 (-39);         (* 10000 *)
     timezone := 3600;
     date_time := sample_date_time |}.

Definition sample_article : NewsDTO :=
  {| title := "Maia Sandu: Republica Moldova este ținta unor atacuri hibride";
     author := Some "Ion Gaidău";
     news_description := "Preşedinta Maia Sandu a avertizat";
     source := "Adevarul.ro";
     url := "https://adevarul.ro/stiri-externe/republica-moldova/";
     published_at := sample_published_at |}.

Definition sample_info (articles : option (list NewsDTO)) : LocationInfoDTO :=
  {| location := sample_country;
     weather := sample_weather;
     currency_rates := [("EUR", rate_0_016503)];
     news := articles |}.

Definition sample_info_rates (rates : list (string * spec_float)) : LocationInfoDTO :=
  {| location := sample_country;
     weather := sample_weather;
     currency_rates := rates;
     news := Some [sample_article] |}.

(** The sample country without the area of its capital. *)
Definition sample_country_no_area : CountryDTO :=
  {| country_capital := "Mariehamn";
     country_alpha2code := "AX";
     alt_spellings := ["AX"; "Aaland"; "Aland"; "Ahvenanmaa"];
     currencies := [ {| code := "EUR" |} ];
     flag := "http://assets.promptapi.com/flags/AX.svg";
     languages := [ {| name := "Swedish"; native_name := "svenska" |} ];
     country_name := "Åland Islands";
     population := 28875;
     subregion := "Northern Europe";
     capital_latitude := S754_finite false 5611147365731585 (-48);
     capital_longitude := S754_finite false 8457943058936653 (-47);
     capital_area := None;
     timezones := ["UTC+02:00"] |}.

(** An article as constructed without the author argument. *)
Definition sample_article_no_author : NewsDTO :=
  {| title := "Title"; author := None; news_description := "Text";
     source := "Adevarul.ro"; url := "https://adevarul.ro/";
     published_at := sample_published_at |}.


(** A simple instance of the builtins, for statements evaluated on
    concrete data: floats print as their mantissa and exponent, a string
    hashes to its length and a tuple to a polynomial in its items. *)
Definition plain_float_str (f : spec_float) : string :=
  match f with
  | S754_zero s => if s then "-0.0" else "0.0"
  | S754_infinity s => if s then "-inf" else "inf"
  | S754_nan => "nan"
  | S754_finite s m e =>
      (if s then "-" else "") +:+ str_N (Npos m) +:+ "*2**" +:+ str_int e
  end.

Definition plain_builtins : Builtins :=
  {| float_str := plain_float_str;
     hash_str := fun s => Z.of_nat (String.length s);
     hash_type := fun s => Z.of_nat (String.length s);
     hash_tuple := fun l => foldr (fun x acc => (x + 31 * acc)%Z) 7%Z l |}.

Definition pad2 (z : Z) : string :=
  if (z <? 10)%Z then "0" +:+ str_int z else str_int z.

(** [strftime] for the format the renderer uses, whatever format is asked. *)
Definition plain_clib : Clib :=
  {| strftime := fun d _ =>
       pad2 (day d) +:+ "." +:+ pad2 (month d) +:+ "." +:+ str_int (year d)
       +:+ " " +:+ pad2 (hour d) +:+ ":" +:+ pad2 (minute d) |}.

(** * Properties of the models *)

Section ModelProperties.

(** ** NewsDTO *)

Lemma NewsDTO_new_author t a d s u p n :
  NewsDTO_new t a d s u p = Ok n ->
  author n = match a with
             | Omitted => None
             | PyNone => validate_author None
             | Value v => validate_author (Some v)
             end.
Proof.
  destruct t, a, d, s, u, p; cbn; intros E; inversion E; reflexivity.
Qed.

Lemma validate_author_filled v :
  validate_author v <> None /\ validate_author v <> Some "".
Proof.
  destruct v as [s|]; cbn; [|split; discriminate].
  destruct (String.eqb_spec s ""); split; try discriminate.
  intros [= ->]. congruence.
Qed.

End ModelProperties.

(** C1 (the code at the failing input): a [NewsDTO] constructed without
    the [author] argument has [author = None].  [validate_author], which
    turns [None] into ["unknown"], is declared without [always=True] and
    so is not run for an argument that is left out. *)
Lemma news_author_omitted_stays_none :
  NewsDTO_new (Value "Title") Omitted (Value "Text") (Value "Adevarul.ro")
              (Value "https://adevarul.ro/") (Value sample_published_at)
  = Ok {| title := "Title"; author := None; news_description := "Text";
          source := "Adevarul.ro"; url := "https://adevarul.ro/";
          published_at := sample_published_at |}.
Proof. reflexivity. Qed.

(** The paths on which [validate_author] is run: when an [author]
    argument is given at construction, be it [None], the empty string or
    a text, the author of the constructed [NewsDTO] is neither [None] nor
    the empty string; [None] and the empty string become ["unknown"], any
    other text is kept. *)
Theorem news_author_given_is_normalized
    (t a d s u : arg string) (p : arg datetime) (n : NewsDTO) :
  a <> Omitted ->
  NewsDTO_new t a d s u p = Ok n ->
  author n <> None /\ author n <> Some ""
  /\ (a = PyNone \/ a = Value "" -> author n = Some "unknown")
  /\ (forall v, a = Value v -> v <> "" -> author n = Some v).
Proof.
  intros Ha E. apply NewsDTO_new_author in E.
  assert (F : exists v, author n = validate_author v
                        /\ (a = PyNone \/ a = Value "" -> v = None \/ v = Some "")
                        /\ (forall w, a = Value w -> v = Some w)).
  { destruct a as [| |w]; [congruence | exists None | exists (Some w)];
      (split; [exact E|split]); try (intros [[=] | [= ->]]; auto);
      try (intros ? [=]; congruence); auto. }
  destruct F as (v & -> & Hempty & Hval).
  split; [apply validate_author_filled|].
  split; [apply validate_author_filled|].
  split.
  - intros Hc. destruct (Hempty Hc) as [-> | ->]; reflexivity.
  - intros w Hw Hne. rewrite (Hval w Hw). cbn.
    destruct (String.eqb_spec w ""); congruence.
Qed.

Lemma news_author_given_is_normalized_witness :
  exists n,
    NewsDTO_new (Value "Title") PyNone (Value "Text") (Value "Adevarul.ro")
                (Value "https://adevarul.ro/") (Value sample_published_at) = Ok n
    /\ author n = Some "unknown".
Proof.
  eexists. split; [reflexivity|].
  refine (proj1 (proj2 (proj2
    (news_author_given_is_normalized
       (Value "Title") PyNone (Value "Text") (Value "Adevarul.ro")
       (Value "https://adevarul.ro/") (Value sample_published_at) _ _ _))) _).
  - discriminate.
  - reflexivity.
  - left; reflexivity.
Defined.

(** ** LocationInfoDTO *)

(** C2: [LocationInfoDTO] cannot be constructed when [location] or
    [weather] is left out or is [None]: the construction raises a
    validation error that names the field.  With both given it is
    constructed when [news] is left out or [None] (the field is then
    [None]) and [currency_rates] is the empty mapping. *)
Theorem location_info_requires_location_and_weather :
  (forall w c n, exists errors,
      LocationInfoDTO_new Omitted w c n = Raise (ValidationError errors)
      /\ In ("location", MissingError) errors)
  /\ (forall w c n, exists errors,
      LocationInfoDTO_new PyNone w c n = Raise (ValidationError errors)
      /\ In ("location", NoneIsNotAllowedError) errors)
  /\ (forall l c n, exists errors,
      LocationInfoDTO_new l Omitted c n = Raise (ValidationError errors)
      /\ In ("weather", MissingError) errors)
  /\ (forall l c n, exists errors,
      LocationInfoDTO_new l PyNone c n = Raise (ValidationError errors)
      /\ In ("weather", NoneIsNotAllowedError) errors)
  /\ (forall l w,
      LocationInfoDTO_new (Value l) (Value w) (Value []) Omitted
      = Ok {| location := l; weather := w; currency_rates := []; news := None |}
      /\ LocationInfoDTO_new (Value l) (Value w) (Value []) PyNone
         = Ok {| location := l; weather := w; currency_rates := []; news := None |}).
Proof.
  repeat split.
  - intros w c n. destruct w, c, n; cbn; eexists; (split; [reflexivity|]); cbn; auto.
  - intros w c n. destruct w, c, n; cbn; eexists; (split; [reflexivity|]); cbn; auto.
  - intros l c n. destruct l, c, n; cbn; eexists; (split; [reflexivity|]); cbn; auto.
  - intros l c n. destruct l, c, n; cbn; eexists; (split; [reflexivity|]); cbn; auto.
Qed.

(** ** LocationDTO *)

Lemma constr_length_validator_2_2 s :
  constr_length_validator 2 2 s
  = if (len s =? 2)%nat then inr s
    else if (len s <? 2)%nat then inl (AnyStrMinLengthError 2)
         else inl (AnyStrMaxLengthError 2).
Proof.
  unfold constr_length_validator.
  destruct (Nat.ltb_spec (len s) 2), (Nat.ltb_spec 2 (len s)),
    (Nat.eqb_spec (len s) 2); try reflexivity; lia.
Qed.

(** C3: a constructed [LocationDTO] has an [alpha2code] of length 2, the
    one it was given; with an [alpha2code] of any other length the
    construction raises a validation error that names the field; with a
    capital and an [alpha2code] of length 2 it succeeds. *)
Theorem location_alpha2code_has_length_2 :
  (forall c a d, LocationDTO_new c a = Ok d ->
                 a = Value (alpha2code d) /\ len (alpha2code d) = 2)
  /\ (forall c s, len s <> 2 ->
        exists errors e,
          LocationDTO_new c (Value s) = Raise (ValidationError errors)
          /\ In ("alpha2code", e) errors
          /\ (e = AnyStrMinLengthError 2 \/ e = AnyStrMaxLengthError 2))
  /\ (forall c s, len s = 2 ->
        LocationDTO_new (Value c) (Value s) = Ok {| capital := c; alpha2code := s |}).
Proof.
  unfold LocationDTO_new. split; [|split].
  - intros c a d H.
    destruct c, a as [| |s]; cbn in H; try discriminate;
      rewrite constr_length_validator_2_2 in H;
      destruct (Nat.eqb_spec (len s) 2), (len s <? 2)%nat; cbn in H;
      try discriminate.
    all: injection H as <-; split; [reflexivity | assumption].
  - intros c s Hs. cbn. rewrite constr_length_validator_2_2.
    destruct (Nat.eqb_spec (len s) 2); [contradiction|].
    destruct (len s <? 2)%nat, c; cbn; do 2 eexists;
      (split; [reflexivity|]); cbn; auto 6.
  - intros c s Hs. cbn. rewrite constr_length_validator_2_2.
    rewrite (proj2 (Nat.eqb_eq _ _) Hs). reflexivity.
Qed.

(** C4 (as stated, fails): a constructed [LocationDTO] is not immutable;
    assigning to a field stores the new value. *)
Lemma location_setattr_changes_field :
  LocationDTO_setattr {| capital := "Moscow"; alpha2code := "RU" |} "capital" "Paris"
  = Ok {| capital := "Paris"; alpha2code := "RU" |}.
Proof. reflexivity. Qed.

Section Hashable.

Context `{Builtins}.

Lemma location_dict_eq i a :
  __eq__ (LocationDTO_instance i a) (LocationDTO_instance i a) = true.
Proof.
  unfold __eq__, dict_subset, dict_get. cbn.
  rewrite !String.eqb_refl. reflexivity.
Qed.

Lemma location_eq_iff i j a b :
  __eq__ (LocationDTO_instance i a) (LocationDTO_instance j b) = true
  <-> capital a = capital b /\ alpha2code a = alpha2code b.
Proof.
  unfold __eq__, dict_subset, dict_get. cbn.
  rewrite !andb_true_r, !andb_true_iff, !String.eqb_eq. intuition congruence.
Qed.

Lemma eq_depends_on_dict x y z :
  __dict__ x = __dict__ y -> __eq__ z x = __eq__ z y.
Proof. unfold __eq__. intros ->. reflexivity. Qed.

Lemma hash_depends_on_type_and_dict x y :
  type x = type y -> __dict__ x = __dict__ y -> __hash__ x = __hash__ y.
Proof. unfold __hash__. intros -> ->. reflexivity. Qed.

End Hashable.

(** C4 (amended): [LocationDTO] has structural equality and a hash derived
    from its fields: two instances, whatever their identities, whose
    [capital] and [alpha2code] are equal are equal, have the same hash,
    one is found in a set exactly when the other is (whatever hashes the
    set has stored for its entries), and as keys of a cache they give
    the same entry.  (Instances are not immutable.) *)
Theorem location_equal_fields_interchangeable
    `{Builtins} (i j : positive) (a b : LocationDTO) :
  capital a = capital b ->
  alpha2code a = alpha2code b ->
  __eq__ (LocationDTO_instance i a) (LocationDTO_instance j b) = true
  /\ __hash__ (LocationDTO_instance i a) = __hash__ (LocationDTO_instance j b)
  /\ (forall s : list (Z * instance),
       set_contains s (LocationDTO_instance i a)
       = set_contains s (LocationDTO_instance j b))
  /\ (forall (V : Type) (cache : gmap LocationDTO V), cache !! a = cache !! b).
Proof.
  intros Hc Ha.
  assert (Hd : __dict__ (LocationDTO_instance i a)
               = __dict__ (LocationDTO_instance j b)).
  { cbn. rewrite Hc, Ha. reflexivity. }
  assert (Hh : __hash__ (LocationDTO_instance i a)
               = __hash__ (LocationDTO_instance j b)).
  { apply hash_depends_on_type_and_dict; [reflexivity | exact Hd]. }
  assert (Hxy : __eq__ (LocationDTO_instance i a) (LocationDTO_instance j b) = true).
  { apply location_eq_iff. auto. }
  split; [exact Hxy|]. split; [exact Hh|]. split;
    [|intros V cache; destruct a, b; cbn in Hc, Ha; subst; reflexivity].
  intros s. unfold set_contains. induction s as [|[h z] s IH]; [reflexivity|].
  cbn. rewrite IH, Hh. f_equal. f_equal.
  rewrite (eq_depends_on_dict _ _ z Hd). unfold is_.
  destruct (bool_decide_reflect (z = LocationDTO_instance i a)) as [Ezx | Hzx],
           (bool_decide_reflect (z = LocationDTO_instance j b)) as [Ezy | Hzy];
    cbn; try reflexivity.
  - rewrite Ezx, Hxy. reflexivity.
  - rewrite Ezy, location_dict_eq. reflexivity.
Qed.

Lemma location_equal_fields_interchangeable_witness :
  let a := {| capital := "Moscow"; alpha2code := "RU" |} in
  __eq__ (LocationDTO_instance 1 a) (LocationDTO_instance 2 a) = true
  /\ @__hash__ plain_builtins (LocationDTO_instance 1 a)
     = @__hash__ plain_builtins (LocationDTO_instance 2 a)
  /\ (forall s : list (Z * instance),
       @set_contains plain_builtins s (LocationDTO_instance 1 a)
       = @set_contains plain_builtins s (LocationDTO_instance 2 a))
  /\ (forall (V : Type) (cache : gmap LocationDTO V), cache !! a = cache !! a).
Proof.
  exact (@location_equal_fields_interchangeable plain_builtins 1 2
           {| capital := "Moscow"; alpha2code := "RU" |}
           {| capital := "Moscow"; alpha2code := "RU" |} eq_refl eq_refl).
Defined.

(** * Properties of the renderer *)

Section RenderProperties.

Context `{Builtins} `{Clib}.

Lemma add_row_fields row t :
  field_names t <> [] ->
  length row = length (field_names t) ->
  add_row row t
  = Ok {| field_names := field_names t; rows := (rows t ++ [row])%list;
          _max_width := _max_width t; padding_width := padding_width t |}.
Proof.
  intros Hne Hlen. unfold add_row.
  rewrite Hlen, Nat.eqb_refl. cbn [negb]. rewrite andb_false_r.
  destruct (field_names t); [contradiction | reflexivity].
Qed.

Lemma add_news_rows_fields articles t :
  field_names t = news_field_names ->
  add_news_rows articles t
  = Ok {| field_names := news_field_names;
          rows := (rows t ++ map news_row articles)%list;
          _max_width := _max_width t; padding_width := padding_width t |}.
Proof.
  revert t. induction articles as [|a l IH]; intros t Ht.
  - cbn. rewrite app_nil_r. destruct t; cbn in *. subst. reflexivity.
  - cbn [add_news_rows]. rewrite add_row_fields.
    + cbn [mbind result_bind Py.bind]. rewrite IH by exact Ht.
      cbn [rows _max_width padding_width map]. rewrite <- app_assoc.
      reflexivity.
    + rewrite Ht. discriminate.
    + rewrite Ht. reflexivity.
Qed.

(** [render] is the sequence of its three fallible steps. *)
Lemma render_steps location_info :
  render location_info
  = (tz ← first_item (timezones (location location_info));
     rates_text ← _format_currency_rates location_info;
     articles ← iterate (news location_info);
     Ok ({| field_names := info_field_names;
            rows := [info_row location_info tz rates_text];
            _max_width := []; padding_width := 1 |},
         "Погода:",
         {| field_names := weather_field_names;
            rows := [weather_row location_info];
            _max_width := []; padding_width := 1 |},
         "Новости",
         {| field_names := news_field_names;
            rows := map news_row articles;
            _max_width := [("Название", 25%Z); ("Ссылка", 25%Z); ("Описание", 45%Z)];
            padding_width := 5 |})).
Proof.
  unfold render.
  destruct (first_item (timezones (location location_info))) as [tz|e];
    [|reflexivity].
  cbn [mbind result_bind Py.bind].
  destruct (_format_currency_rates location_info) as [rt|e]; [|reflexivity].
  cbn [mbind result_bind Py.bind].
  rewrite !add_row_fields by (try discriminate; reflexivity).
  cbn [mbind result_bind Py.bind].
  destruct (iterate (news location_info)) as [l|e]; [|reflexivity].
  cbn [mbind result_bind Py.bind].
  rewrite add_news_rows_fields by reflexivity.
  reflexivity.
Qed.

End RenderProperties.

(** C7: when [news] is present, a rendering has in its news table one row
    per article, in the order of [news]: read down the table, every
    column holds that field of the first article, then of the second, and
    so on (the source, the title, the author or "None", the link, the
    description, the publication time), and the row at the place of an
    article is the row of that article; and there is a rendering whenever
    the location has a timezone and the currency rates can be
    formatted. *)
Theorem news_rows_follow_articles
    `{Builtins} `{Clib} (location_info : LocationInfoDTO) (articles : list NewsDTO) :
  news location_info = Some articles ->
  (forall info_table s1 weather_table s2 news_table,
      render location_info = Ok (info_table, s1, weather_table, s2, news_table) ->
      rows news_table = map news_row articles
      /\ length (rows news_table) = length articles
      /\ (forall i article, articles !! i = Some article ->
                            rows news_table !! i = Some (news_row article))
      /\ column_cells news_table "Источник"
         = map (fun article => Some (CStr (source article))) articles
      /\ column_cells news_table "Название"
         = map (fun article => Some (CStr (title article))) articles
      /\ column_cells news_table "Автор"
         = map (fun article =>
                  Some (CStr match author article with
                             | Some a => a
                             | None => "None"
                             end)) articles
      /\ column_cells news_table "Ссылка"
         = map (fun article => Some (CStr (url article))) articles
      /\ column_cells news_table "Описание"
         = map (fun article => Some (CStr (news_description article))) articles
      /\ column_cells news_table "Дата публикации"
         = map (fun article =>
                  Some (CStr (strftime (published_at article) "%d.%m.%Y %H:%M")))
               articles)
  /\ (timezones (location location_info) <> [] ->
      is_ok (_format_currency_rates location_info) = true ->
      is_ok (render location_info) = true).
Proof.
  intros Hnews. rewrite render_steps, Hnews. split.
  - intros it s1 wt s2 nt E.
    destruct (first_item _) as [tz|]; [|discriminate]. cbn in E.
    destruct (_format_currency_rates location_info) as [rt|]; [|discriminate].
    cbn in E. injection E as <- <- <- <- <-.
    unfold column_cells. cbn [rows field_names].
    split; [reflexivity|]. split; [apply length_map|].
    split; [intros i article Hi; rewrite list_lookup_fmap, Hi; reflexivity|].
    rewrite !List.map_map.
    repeat split; apply List.map_ext; intros article; reflexivity.
  - intros Htz Hrates.
    destruct (timezones (location location_info)); [contradiction|]. cbn.
    destruct (_format_currency_rates location_info); [reflexivity | discriminate].
Qed.

Lemma news_rows_follow_articles_witness :
  exists t,
    @render plain_builtins plain_clib
      (sample_info (Some [sample_article; sample_article_no_author]))
    = Ok t
    /\ length (rows t.2) = 2%nat
    /\ column_cells t.2 "Название"
       = [Some (CStr "Maia Sandu: Republica Moldova este ținta unor atacuri hibride");
          Some (CStr "Title")]
    /\ column_cells t.2 "Автор" = [Some (CStr "Ion Gaidău"); Some (CStr "None")]
    /\ column_cells t.2 "Ссылка"
       = [Some (CStr "https://adevarul.ro/stiri-externe/republica-moldova/");
          Some (CStr "https://adevarul.ro/")].
Proof.
  pose proof (@news_rows_follow_articles plain_builtins plain_clib
                (sample_info (Some [sample_article; sample_article_no_author]))
                [sample_article; sample_article_no_author] eq_refl) as [Hrows Hok].
  destruct (@render plain_builtins plain_clib
              (sample_info (Some [sample_article; sample_article_no_author])))
    as [[[[[it s1] wt] s2] nt]|e] eqn:E.
  - exists (it, s1, wt, s2, nt).
    destruct (Hrows it s1 wt s2 nt eq_refl)
      as (_ & Hlen & _ & _ & Htitle & Hauthor & Hurl & _).
    split; [reflexivity|]. split; [exact Hlen|]. split; [exact Htitle|].
    split; [exact Hauthor | exact Hurl].
  - exfalso. cbn in Hok. assert (false = true) by (apply Hok; [discriminate|]; vm_compute; reflexivity). discriminate.
Defined.

(** C8: when the location's [timezones] list is not empty, a rendering has
    in the timezone column of the location row the first element of the
    list; and there is a rendering whenever the currency rates can be
    formatted and [news] is present. *)
Theorem timezone_column_is_first_timezone
    `{Builtins} `{Clib} (location_info : LocationInfoDTO)
    (tz : string) (others : list string) :
  timezones (location location_info) = tz :: others ->
  (forall info_table s1 weather_table s2 news_table,
      render location_info = Ok (info_table, s1, weather_table, s2, news_table) ->
      exists row,
        rows info_table = [row]
        /\ column (field_names info_table) row "Часовой пояс" = Some (CStr tz))
  /\ (is_ok (_format_currency_rates location_info) = true ->
      news location_info <> None ->
      is_ok (render location_info) = true).
Proof.
  intros Htz. rewrite render_steps, Htz. cbn [first_item mbind result_bind Py.bind].
  split.
  - intros it s1 wt s2 nt E.
    destruct (_format_currency_rates location_info) as [rt|]; [|discriminate].
    cbn in E. destruct (news location_info); [|discriminate].
    cbn in E. injection E as <- <- <- <- <-.
    eexists. split; reflexivity.
  - intros Hrates Hnews.
    destruct (_format_currency_rates location_info); [|discriminate].
    destruct (news location_info); [reflexivity | contradiction].
Qed.

Lemma timezone_column_is_first_timezone_witness :
  exists t row,
    @render plain_builtins plain_clib (sample_info (Some [sample_article])) = Ok t
    /\ rows t.1.1.1.1 = [row]
    /\ column (field_names t.1.1.1.1) row "Часовой пояс" = Some (CStr "UTC+02:00").
Proof.
  pose proof (@timezone_column_is_first_timezone plain_builtins plain_clib
                (sample_info (Some [sample_article])) "UTC+02:00" [] eq_refl)
    as [Hcol Hok].
  destruct (@render plain_builtins plain_clib (sample_info (Some [sample_article])))
    as [[[[[it s1] wt] s2] nt]|e] eqn:E.
  - destruct (Hcol it s1 wt s2 nt eq_refl) as (row & Hrows & Hc).
    exists (it, s1, wt, s2, nt), row. auto.
  - exfalso.
    assert (false = true) by (apply Hok; [vm_compute; reflexivity | discriminate]).
    discriminate.
Defined.

(** C10: [news] may be [None] in a [LocationInfoDTO], and for every such
    value [render] raises: there is no rendering.  When the steps before
    the loop pass (a timezone exists, the rates can be formatted) the
    exception is the [TypeError] of iterating over [None].  So a rendering
    exists only when [news] is a list, and with a list (also the empty
    one) those steps are all that can fail. *)
Theorem render_raises_without_news
    `{Builtins} `{Clib} (location_info : LocationInfoDTO) :
  news location_info = None ->
  is_ok (render location_info) = false
  /\ (timezones (location location_info) <> [] ->
      is_ok (_format_currency_rates location_info) = true ->
      render location_info = Raise TypeError)
  /\ (forall articles,
      let with_news :=
        {| location := location location_info; weather := weather location_info;
           currency_rates := currency_rates location_info; news := Some articles |} in
      timezones (location location_info) <> [] ->
      is_ok (_format_currency_rates location_info) = true ->
      is_ok (render with_news) = true).
Proof.
  intros Hnews. rewrite !render_steps, Hnews. split; [|split].
  - destruct (first_item _); [|reflexivity]. cbn.
    destruct (_format_currency_rates location_info); reflexivity.
  - intros Htz Hrates.
    destruct (timezones (location location_info)); [contradiction|]. cbn.
    destruct (_format_currency_rates location_info); [reflexivity | discriminate].
  - intros articles with_news Htz Hrates. rewrite render_steps. subst with_news.
    unfold _format_currency_rates in *. cbn [location currency_rates news] in *.
    destruct (timezones (location location_info)); [contradiction|]. cbn.
    destruct (traverse format_rate (currency_rates location_info));
      [reflexivity | discriminate].
Qed.

Lemma render_raises_without_news_witness :
  LocationInfoDTO_new (Value sample_country) (Value sample_weather)
                      (Value [("EUR", rate_0_016503)]) PyNone
  = Ok (sample_info None)
  /\ @render plain_builtins plain_clib (sample_info None) = Raise TypeError.
Proof.
  split; [reflexivity|].
  refine (proj1 (proj2 (@render_raises_without_news plain_builtins plain_clib
                          (sample_info None) eq_refl)) _ _).
  - discriminate.
  - vm_compute. reflexivity.
Defined.

(** * Properties of the builtins *)

Section DigitsProperties.

Lemma digit_char_value d : (d < 10)%N -> digit_value (digit_char d) = d.
Proof.
  intros Hd. unfold digit_value, digit_char.
  rewrite N_ascii_embedding by lia. lia.
Qed.

Lemma digit_char_isdigit d : (d < 10)%N -> isdigit (digit_char d) = true.
Proof.
  intros Hd. unfold isdigit, digit_char.
  rewrite N_ascii_embedding by lia.
  apply andb_true_iff. split; [apply N.leb_le | apply N.leb_le]; lia.
Qed.

Lemma int_of_digits_snoc l c :
  int_of_digits (l ++ [c]) = (10 * int_of_digits l + digit_value c)%N.
Proof. unfold int_of_digits. rewrite fold_left_app. reflexivity. Qed.

Lemma digits_aux_spec fuel : forall n acc,
  (n < 2 ^ N.of_nat fuel)%N ->
  exists l,
    digits_aux fuel n acc = (l ++ acc)%list
    /\ int_of_digits l = n
    /\ Forall (fun c => isdigit c = true) l
    /\ (1 <= length l)%nat
    /\ (n < 10 ^ N.of_nat (length l))%N
    /\ (0 < n -> 10 ^ N.of_nat (length l - 1) <= n)%N.
Proof.
  assert (Hone : forall n acc, (n < 10)%N ->
    exists l, (digit_char (n mod 10) :: acc = l ++ acc)%list
      /\ int_of_digits l = n /\ Forall (fun c => isdigit c = true) l
      /\ (1 <= length l)%nat /\ (n < 10 ^ N.of_nat (length l))%N
      /\ (0 < n -> 10 ^ N.of_nat (length l - 1) <= n)%N).
  { intros n acc Hn. exists [digit_char (n mod 10)].
    rewrite N.mod_small by exact Hn.
    split; [reflexivity|]. split.
    { unfold int_of_digits. cbn [fold_left]. rewrite digit_char_value by exact Hn. lia. }
    split; [repeat constructor; apply digit_char_isdigit; exact Hn|].
    cbn. split; [lia|]. split; lia. }
  induction fuel as [|fuel IH]; intros n acc Hn.
  - cbn in Hn. cbn [digits_aux]. apply Hone. lia.
  - cbn [digits_aux]. destruct (N.ltb_spec n 10) as [Hlt|Hge]; [apply Hone; exact Hlt|].
    assert (Hdiv : (n / 10 < 2 ^ N.of_nat fuel)%N).
    { rewrite Nat2N.inj_succ, N.pow_succ_r' in Hn.
      apply N.Div0.div_lt_upper_bound. lia. }
    destruct (IH (n / 10)%N (digit_char (n mod 10) :: acc) Hdiv)
      as (l & El & Hv & Hd & Hlen & Hub & Hlb).
    exists (l ++ [digit_char (n mod 10)])%list.
    assert (Hm : (n mod 10 < 10)%N) by (apply N.mod_lt; lia).
    split; [rewrite El, <- app_assoc; reflexivity|].
    split.
    { rewrite int_of_digits_snoc, Hv, digit_char_value by exact Hm.
      symmetry. apply N.div_mod. lia. }
    split.
    { apply Forall_app. split; [exact Hd|].
      repeat constructor. apply digit_char_isdigit. exact Hm. }
    rewrite length_app. cbn [length].
    replace (length l + 1)%nat with (S (length l)) by lia.
    split; [lia|].
    rewrite Nat2N.inj_succ, N.pow_succ_r'.
    split.
    { pose proof (N.div_mod n 10). lia. }
    intros _.
    replace (S (length l) - 1)%nat with (S (length l - 1)) by lia.
    rewrite Nat2N.inj_succ, N.pow_succ_r'.
    assert (0 < n / 10)%N by (apply N.div_str_pos; lia).
    specialize (Hlb H).
    set (P := (10 ^ N.of_nat (length l - 1))%N) in *. clearbody P.
    assert (E : n = (10 * (n / 10) + n mod 10)%N) by (apply N.div_mod; lia).
    clear - Hlb E.
    generalize dependent (n / 10)%N. generalize (n mod 10)%N. intros. lia.
Qed.

Lemma digits_spec n :
  int_of_digits (digits n) = n
  /\ Forall (fun c => isdigit c = true) (digits n)
  /\ (1 <= length (digits n))%nat
  /\ (n < 10 ^ N.of_nat (length (digits n)))%N
  /\ (0 < n -> 10 ^ N.of_nat (length (digits n) - 1) <= n)%N.
Proof.
  unfold digits.
  destruct (digits_aux_spec (N.to_nat (N.size n)) n []) as (l & E & Hl).
  { rewrite N2Nat.id. apply N.size_gt. }
  rewrite E, app_nil_r. exact Hl.
Qed.

End DigitsProperties.

Section GroupingProperties.


Lemma append_cons c (s1 s2 : string) : String c s1 +:+ s2 = String c (s1 +:+ s2).
Proof. reflexivity. Qed.

Lemma append_empty_l (s : string) : "" +:+ s = s.
Proof. reflexivity. Qed.



Lemma append_empty_r (s : string) : s +:+ "" = s.
Proof. induction s as [|c s IH]; [|rewrite append_cons, IH]; reflexivity. Qed.


End GroupingProperties.

(** The population of the sample country reads "28.875". *)
Example format_population_28875 : _format_population (sample_info None) = "28.875".
Proof. reflexivity. Qed.



(** * Properties of the currency text *)

Section QuantizeProperties.

Lemma half_up_fraction (p : Z) (q : positive) :
  Qfloor (100 * (p # q) + (1 # 2)) = ((200 * p + Zpos q) / (2 * Zpos q))%Z.
Proof.
  unfold Qfloor, Qplus, Qmult. cbn [Qnum Qden].
  f_equal; lia.
Qed.

Lemma N_div_cross (a b c d : N) :
  (0 < b)%N -> (0 < d)%N -> (a * d = c * b)%N -> (a / b = c / d)%N.
Proof.
  intros Hb Hd E.
  rewrite <- (N.Div0.div_mul_cancel_r a b d) by lia.
  rewrite E, (N.mul_comm b d).
  apply N.Div0.div_mul_cancel_r; lia.
Qed.

Lemma N_div_ge (a b q : N) : (0 < b)%N -> (q <= a / b)%N -> (b * q <= a)%N.
Proof.
  intros Hb Hq. pose proof (N.Div0.mul_div_le a b) as H1.
  assert (H2 : (b * q <= b * (a / b))%N) by (apply N.mul_le_mono_l; exact Hq).
  exact (N.le_trans _ _ _ H2 H1).
Qed.

Lemma N_div_lt (a b q : N) : (0 < b)%N -> (a / b < q)%N -> (a < b * q)%N.
Proof.
  intros Hb Hq. pose proof (N.mul_succ_div_gt a b) as H1.
  assert (H2 : (b * N.succ (a / b) <= b * q)%N).
  { apply N.mul_le_mono_l. apply N.le_succ_l. exact Hq. }
  apply N.lt_le_trans with (2 := H2). apply H1. lia.
Qed.

Lemma half_up_first_digit (c : N) (k : N) :
  (0 < k)%N ->
  ((2 * c + 10 ^ k) / (2 * 10 ^ k)
   = if 5 <=? (c mod 10 ^ k) / 10 ^ (k - 1) then c / 10 ^ k + 1 else c / 10 ^ k)%N.
Proof.
  intros Hk.
  assert (E10 : (10 ^ k = 10 * 10 ^ (k - 1))%N).
  { rewrite <- N.pow_succ_r'. f_equal. lia. }
  assert (HT : (0 < 10 ^ (k - 1))%N) by (apply N.neq_0_lt_0, N.pow_nonzero; lia).
  set (T := (10 ^ (k - 1))%N) in *. clearbody T. rewrite E10. clear E10 Hk k.
  assert (Hc : (c = (10 * T) * (c / (10 * T)) + c mod (10 * T))%N)
    by (apply N.div_mod; lia).
  assert (Hr : (c mod (10 * T) < 10 * T)%N) by (apply N.mod_lt; lia).
  set (q := (c / (10 * T))%N) in *. set (r := (c mod (10 * T))%N) in *.
  clearbody q r.
  replace (2 * c + 10 * T)%N with (q * (2 * (10 * T)) + (2 * r + 10 * T))%N by lia.
  rewrite N.div_add_l by lia.
  destruct (N.leb_spec 5 (r / T)) as [H5|H5].
  - apply N_div_ge in H5; [|exact HT]. f_equal.
    symmetry. apply (N.div_unique _ _ 1 (2 * r - 10 * T)); lia.
  - apply N_div_lt in H5; [|exact HT].
    rewrite N.div_small by lia. lia.
Qed.

Lemma digits_0 : digits 0 = ["0"%char].
Proof. reflexivity. Qed.

Lemma ndigits_le (c L : N) :
  (1 <= L)%N -> (c < 10 ^ L)%N -> (ndigits c <= Z.of_N L)%Z.
Proof.
  intros HL Hc. unfold ndigits.
  destruct (N.eq_dec c 0%N) as [->|Hc0]; [rewrite digits_0; cbn; lia|].
  destruct (digits_spec c) as (_ & _ & Hlen & _ & Hlb).
  assert (H0 : (0 < c)%N) by lia. specialize (Hlb H0).
  assert (Hp : (10 ^ N.of_nat (length (digits c) - 1) < 10 ^ L)%N)
    by (eapply N.le_lt_trans; eassumption).
  apply N.pow_lt_mono_r_iff in Hp; lia.
Qed.

Lemma ndigits_pos (c : N) : (1 <= ndigits c)%Z.
Proof.
  unfold ndigits. destruct (digits_spec c) as (_ & _ & Hlen & _). lia.
Qed.

(** Quantizing [c * 10^(-t)], which is the fraction [P / D], to two
    decimals with half-up rounding gives [floor (100 * P / D + 1/2)]
    hundredths when that number has at most 28 digits. *)
Lemma quantize_hundredths (s : bool) (c t P D : N) :
  (0 < c)%N -> (0 < D)%N ->
  (c * D = P * 10 ^ t)%N ->
  ((200 * P + D) / (2 * D) < 10 ^ 28)%N ->
  quantize DefaultContext (Finite s c (- Z.of_N t)) (Finite false 1 (-2))
           ROUND_HALF_UP
  = Ok (Finite s ((200 * P + D) / (2 * D)) (-2)).
Proof.
  intros Hc HD Hv HR.
  set (R := ((200 * P + D) / (2 * D))%N) in *.
  assert (HP : (P < D * 10 ^ 26)%N).
  { destruct (N.lt_ge_cases P (D * 10 ^ 26)) as [|Hge]; [assumption|exfalso].
    assert (10 ^ 28 <= R)%N; [|lia].
    apply N.div_le_lower_bound; [lia|].
    change (10 ^ 28)%N with (100 * 10 ^ 26)%N.
    set (B := (10 ^ 26)%N) in *. clearbody B. lia. }
  assert (Hcb : (c < 10 ^ (26 + t))%N).
  { rewrite N.pow_add_r. apply (N.mul_lt_mono_pos_r D); [exact HD|].
    rewrite Hv. rewrite (N.mul_comm (10 ^ 26 * 10 ^ t)), N.mul_assoc.
    apply N.mul_lt_mono_pos_r; [apply N.neq_0_lt_0, N.pow_nonzero; lia|].
    exact HP. }
  assert (Hnd : (ndigits c <= 26 + Z.of_N t)%Z).
  { pose proof (ndigits_le c (26 + t)) as Hle. lia. }
  assert (HndR : (ndigits R <= 28)%Z) by (apply (ndigits_le R 28); [lia | exact HR]).
  pose proof (ndigits_pos c) as Hc1. pose proof (ndigits_pos R) as HR1.
  assert (Hres : _rescale s c (- Z.of_N t) (-2) ROUND_HALF_UP = Finite s R (-2)).
  { unfold _rescale.
    destruct (N.eqb_spec c 0) as [|_]; [lia|].
    destruct (Z.leb_spec (-2) (- Z.of_N t)) as [Hsmall|Hlarge].
    - f_equal. unfold R.
      apply (N.div_unique _ _ _ D); [lia|].
      assert (Ht : (t = 0 \/ t = 1 \/ t = 2)%N) by lia.
      destruct Ht as [-> | [-> | ->]];
        match goal with
        | |- context [(10 ^ ?x)%N] =>
            let v := eval vm_compute in (10 ^ x)%N in
            change (10 ^ x)%N with v
        end;
        match type of Hv with
        | context [(10 ^ ?x)%N] =>
            let v := eval vm_compute in (10 ^ x)%N in
            change (10 ^ x)%N with v in Hv
        end; lia.
    - set (k := Z.to_N (-2 - - Z.of_N t)).
      assert (Hk : (t = k + 2)%N) by lia.
      assert (Hk0 : (0 < k)%N) by lia.
      cbn zeta. rewrite <- half_up_first_digit by exact Hk0.
      f_equal. unfold R. symmetry. apply N_div_cross.
      + lia.
      + assert (0 < 10 ^ k)%N by (apply N.neq_0_lt_0, N.pow_nonzero; lia). lia.
      + rewrite Hk, N.pow_add_r in Hv. change (10 ^ 2)%N with 100%N in Hv.
        set (T := (10 ^ k)%N) in *. clearbody T. nia. }
  unfold quantize.
  replace (negb ((Etiny DefaultContext <=? -2)%Z && (-2 <=? Emax DefaultContext)%Z))
    with false by reflexivity.
  destruct (N.eqb_spec c 0) as [|_]; [lia|].
  unfold adjusted. rewrite Hres. cbn [Emax prec DefaultContext].
  destruct (Z.ltb_spec 999999 (- Z.of_N t + ndigits c - 1)) as [|_]; [lia|].
  destruct (Z.ltb_spec 28 (- Z.of_N t + ndigits c - 1 - -2 + 1)) as [|_]; [lia|].
  destruct (Z.ltb_spec 999999 (-2 + ndigits R - 1)) as [|_]; [lia|].
  destruct (Z.ltb_spec 28 (ndigits R)) as [|_]; [lia|].
  reflexivity.
Qed.

Lemma strip_twos_spec (m : positive) : forall e m' e',
  strip_twos m e = (m', e') ->
  (e <= e')%Z
  /\ (Npos m = Npos m' * 2 ^ Z.to_N (e' - e))%N
  /\ (e < 0 -> e' <= 0)%Z
  /\ (0 <= e -> e' = e)%Z.
Proof.
  induction m as [m IH|m IH|]; intros e m' e' E; cbn [strip_twos] in E.
  - injection E as <- <-. rewrite Z.sub_diag. cbn. lia.
  - destruct (Z.ltb_spec e 0) as [Hneg|Hpos].
    + apply IH in E as (Hle & Hm & Hn & Hp).
      split; [lia|]. split; [|split; lia].
      replace (Z.to_N (e' - e)) with (N.succ (Z.to_N (e' - (e + 1)))) by lia.
      rewrite N.pow_succ_r'.
      change (Npos m~0) with (2 * Npos m)%N. rewrite Hm. lia.
    + injection E as <- <-. rewrite Z.sub_diag. cbn. lia.
  - injection E as <- <-. rewrite Z.sub_diag. cbn. lia.
Qed.

(** [Decimal(f)] is the value of the float, exactly: the coefficient
    and the exponent of [from_float], and a fraction [P / D] that is the
    magnitude of the float. *)
Lemma from_float_exact (s : bool) (m : positive) (e : Z) :
  exists c t P D,
    from_float (S754_finite s m e) = Finite s c (- Z.of_N t)
    /\ (0 < c)%N /\ (0 < D)%N
    /\ (c * D = P * 10 ^ t)%N
    /\ half_up_hundredths (S754_finite s m e) = ((200 * P + D) / (2 * D))%N.
Proof.
  unfold from_float, as_integer_ratio, half_up_hundredths, magnitude.
  destruct (strip_twos m e) as [m' e'] eqn:Es.
  apply strip_twos_spec in Es as (Hle & Hm & Hneg & Hpos).
  destruct (Z.leb_spec 0 e) as [He|He].
  - (* an integer *)
    specialize (Hpos He). subst e'. rewrite Z.sub_diag in Hm.
    cbn in Hm. rewrite N.mul_1_r in Hm. injection Hm as <-.
    destruct (Z.leb_spec 0 e) as [_|]; [|lia].
    exists (Npos m * 2 ^ Z.to_N e * 5 ^ N.log2 1)%N, 0%N,
           (Npos m * 2 ^ Z.to_N e)%N, 1%N.
    split; [reflexivity|].
    assert (H2 : (0 < 2 ^ Z.to_N e)%N) by (apply N.neq_0_lt_0, N.pow_nonzero; lia).
    split; [cbn; lia|]. split; [lia|]. split; [cbn; lia|].
    unfold inject_Z. rewrite half_up_fraction.
    rewrite <- (N2Z.id ((200 * (Npos m * 2 ^ Z.to_N e) + 1) / (2 * 1))).
    f_equal. rewrite N2Z.inj_div, N2Z.inj_add, !N2Z.inj_mul, N2Z.inj_pow.
    rewrite Z2N.id by exact He. reflexivity.
  - (* a fraction with a power of two below *)
    specialize (Hneg He).
    assert (HD : (0 < 2 ^ Z.to_N (- e))%N) by (apply N.neq_0_lt_0, N.pow_nonzero; lia).
    assert (Hspec : Z.to_N (Qfloor (100 * (Zpos m # 2 ^ Z.to_pos (- e)) + (1 # 2)))
                    = ((200 * Npos m + 2 ^ Z.to_N (- e)) / (2 * 2 ^ Z.to_N (- e)))%N).
    { rewrite half_up_fraction.
      rewrite <- (N2Z.id ((200 * Npos m + 2 ^ Z.to_N (- e)) / (2 * 2 ^ Z.to_N (- e)))).
      f_equal. rewrite N2Z.inj_div, N2Z.inj_add, !N2Z.inj_mul, N2Z.inj_pow.
      rewrite Pos2Z.inj_pow. rewrite Z2N.id by lia.
      replace (Z.pos (Z.to_pos (- e))) with (- e)%Z by lia. reflexivity. }
    rewrite Hspec.
    destruct (Z.leb_spec 0 e') as [He'|He'].
    + assert (e' = 0)%Z by lia. subst e'.
      exists (Npos m' * 2 ^ Z.to_N 0 * 5 ^ N.log2 1)%N, 0%N, (Npos m), (2 ^ Z.to_N (- e))%N.
      split; [reflexivity|]. split; [cbn; lia|]. split; [exact HD|].
      split; [|reflexivity].
      rewrite Hm. replace (Z.to_N (0 - e)) with (Z.to_N (- e)) by lia.
      change (2 ^ Z.to_N 0)%N with 1%N. change (5 ^ N.log2 1)%N with 1%N.
      change (10 ^ 0)%N with 1%N. lia.
    + exists (Npos m' * 5 ^ N.log2 (2 ^ Z.to_N (- e')))%N,
             (N.log2 (2 ^ Z.to_N (- e')))%N, (Npos m), (2 ^ Z.to_N (- e))%N.
      rewrite N.log2_pow2 by lia.
      split; [reflexivity|].
      assert (H5 : (0 < 5 ^ Z.to_N (- e'))%N) by (apply N.neq_0_lt_0, N.pow_nonzero; lia).
      split; [lia|]. split; [exact HD|]. split; [|reflexivity].
      rewrite Hm.
      replace (Z.to_N (- e)) with (Z.to_N (e' - e) + Z.to_N (- e'))%N by lia.
      rewrite N.pow_add_r.
      change 10%N with (2 * 5)%N. rewrite N.pow_mul_l. lia.
Qed.

(** Every binary64 value below [1e26] in magnitude can be rounded. *)
Lemma binary64_below_1e26_roundable (s : bool) (m : positive) (e : Z) :
  (Zpos m < 2 ^ 53)%Z ->
  (magnitude (S754_finite s m e) < inject_Z (10 ^ 26))%Q ->
  roundable (S754_finite s m e).
Proof.
  intros Hm Hlt. split; [reflexivity|].
  unfold half_up_hundredths, magnitude in *.
  change (2 ^ 53)%Z with 9007199254740992%Z in Hm.
  assert (Hto : forall z, (0 <= z < 10 ^ 28)%Z -> (Z.to_N z < 10 ^ 28)%N).
  { intros z [H0 H1]. change (10 ^ 28)%N with (Z.to_N (10 ^ 28)).
    apply Z2N.inj_lt; [exact H0 | discriminate | exact H1]. }
  destruct (Z.leb_spec 0 e) as [He|He].
  - unfold inject_Z in *. rewrite half_up_fraction.
    unfold Qlt in Hlt. cbn [Qnum Qden] in Hlt. rewrite !Z.mul_1_r in Hlt.
    set (V := (Z.pos m * 2 ^ e)%Z) in *.
    assert (HV : (0 <= V)%Z) by (apply Z.mul_nonneg_nonneg; [lia | apply Z.pow_nonneg; lia]).
    clearbody V. apply Hto. split.
    + apply Z.div_pos; lia.
    + apply Z.div_lt_upper_bound; [lia|].
      change (10 ^ 26)%Z with 100000000000000000000000000%Z in Hlt.
      change (10 ^ 28)%Z with 10000000000000000000000000000%Z. lia.
  - rewrite half_up_fraction. clear Hlt.
    set (D := Z.pos (2 ^ Z.to_pos (- e))). assert (HD : (1 <= D)%Z) by (unfold D; lia).
    clearbody D. apply Hto. split.
    + apply Z.div_pos; lia.
    + apply Z.div_lt_upper_bound; [lia|].
      change (10 ^ 28)%Z with 10000000000000000000000000000%Z. lia.
Qed.

End QuantizeProperties.

Section DecimalTextProperties.

Lemma int_of_digits_leading_zero (l : list ascii) :
  int_of_digits ("0"%char :: l) = int_of_digits l.
Proof. reflexivity. Qed.

(** The text of a decimal with exponent -2: the sign, digits, a point
    and exactly two digits; read without the point the digits are the
    coefficient. *)
Lemma Decimal_str_two_places (s : bool) (R : N) :
  exists int frac : list ascii,
    Decimal_str (Finite s R (-2))
    = (if s then "-" else "") +:+ string_of_list_ascii int +:+ "."
      +:+ string_of_list_ascii frac
    /\ (1 <= length int)%nat
    /\ length frac = 2%nat
    /\ Forall (fun c => isdigit c = true) (int ++ frac)
    /\ int_of_digits (int ++ frac) = R.
Proof.
  destruct (digits_spec R) as (Hv & Hd & Hlen & _).
  unfold Decimal_str. set (ds := digits R) in *. clearbody ds.
  replace ((-2 <=? 0)%Z && (-6 <? -2 + Z.of_nat (length ds))%Z) with true
    by (symmetry; apply andb_true_iff; split;
        [reflexivity | apply Z.ltb_lt; lia]).
  rewrite Z.eqb_refl, append_empty_r.
  destruct ds as [|d1 [|d2 [|d3 rest]]]; [cbn in Hlen; lia | | |].
  - exists ["0"%char], ["0"%char; d1]. split; [reflexivity|].
    split; [cbn; lia|]. split; [reflexivity|]. split.
    + repeat constructor. inversion Hd; assumption.
    + exact Hv.
  - exists ["0"%char], [d1; d2]. split; [reflexivity|].
    split; [cbn; lia|]. split; [reflexivity|]. split.
    + constructor; [reflexivity | exact Hd].
    + exact Hv.
  - set (ds := d1 :: d2 :: d3 :: rest) in *.
    assert (Hn : (3 <= length ds)%nat) by (cbn; lia).
    assert (Hk : Z.to_nat (-2 + Z.of_nat (length ds)) = (length ds - 2)%nat) by lia.
    destruct (Z.leb_spec (-2 + Z.of_nat (length ds)) 0) as [|_]; [lia|].
    destruct (Z.leb_spec (Z.of_nat (length ds)) (-2 + Z.of_nat (length ds))) as [|_];
      [lia|].
    rewrite Hk.
    exists (take (length ds - 2) ds), (drop (length ds - 2) ds).
    split; [reflexivity|].
    split; [rewrite length_take; lia|].
    split; [rewrite length_drop; lia|].
    rewrite take_drop. split; assumption.
Qed.

End DecimalTextProperties.

Section CurrencyProperties.

Lemma format_rate_rounds (currency : string) (rate : spec_float) :
  roundable rate ->
  format_rate (currency, rate) = Ok (rate_text (currency, rate)).
Proof.
  intros [Hfin Hlt]. unfold format_rate, rate_text, two_decimals_half_up.
  cbn [fst snd].
  destruct rate as [s|s| |s m e]; try discriminate Hfin.
  - reflexivity.
  - destruct (from_float_exact s m e) as (c & t & P & D & -> & Hc & HD & Hv & Hh).
    rewrite Hh in Hlt |- *.
    rewrite (quantize_hundredths s c t P D Hc HD Hv Hlt). reflexivity.
Qed.

Lemma traverse_map {A B} (f : A -> result B) (g : A -> B) (l : list A) :
  Forall (fun x => f x = Ok (g x)) l -> traverse f l = Ok (map g l).
Proof.
  induction 1 as [|x l Hx _ IH]; [reflexivity|].
  cbn [traverse map]. rewrite Hx, IH. reflexivity.
Qed.

End CurrencyProperties.

(** C5 (as stated, fails): a rate that is infinite, or as large as
    [1e30], has no text; formatting the currency rates raises
    [InvalidOperation]. *)
Lemma currency_rates_unroundable_raise :
  _format_currency_rates (sample_info_rates [("EUR", S754_infinity false)])
  = Raise InvalidOperation
  /\ _format_currency_rates (sample_info_rates [("EUR", rate_1e30)])
     = Raise InvalidOperation.
Proof. split; vm_compute; reflexivity. Qed.

(** C5 (amended): when every rate of [currency_rates] is finite and its
    value rounded to hundredths has at most 28 digits, the currency text
    is, for every entry in order, "<code> = <rate rounded to 2 decimal
    places, a half going up in magnitude> руб.", joined with ", "; the
    rounded rate is written with its sign, digits, a point and exactly
    two digits, which read as a number are the hundredths. *)
Theorem currency_rates_rounded_half_up (location_info : LocationInfoDTO) :
  Forall (fun item => roundable item.2) (currency_rates location_info) ->
  _format_currency_rates location_info
  = Ok (join ", " (map rate_text (currency_rates location_info)))
  /\ Forall (fun item =>
               exists int frac : list ascii,
                 Decimal_str (two_decimals_half_up item.2)
                 = (if sign_of item.2 then "-" else "")
                   +:+ string_of_list_ascii int +:+ "." +:+ string_of_list_ascii frac
                 /\ (1 <= length int)%nat
                 /\ length frac = 2%nat
                 /\ Forall (fun c => isdigit c = true) (int ++ frac)
                 /\ int_of_digits (int ++ frac) = half_up_hundredths item.2)
            (currency_rates location_info).
Proof.
  intros Hall. split.
  - unfold _format_currency_rates.
    rewrite (traverse_map format_rate rate_text); [reflexivity|].
    eapply Forall_impl; [exact Hall|].
    intros [currency rate] Hr. apply format_rate_rounds. exact Hr.
  - apply Forall_forall. intros item _. apply Decimal_str_two_places.
Qed.

Lemma currency_rates_rounded_half_up_witness :
  _format_currency_rates (sample_info_rates [("EUR", rate_0_016503)])
  = Ok "EUR = 0.02 руб.".
Proof.
  assert (Hall : Forall (fun item : string * spec_float => roundable item.2)
                        (currency_rates (sample_info_rates [("EUR", rate_0_016503)])))
    by (repeat constructor).
  rewrite (proj1 (currency_rates_rounded_half_up
                    (sample_info_rates [("EUR", rate_0_016503)]) Hall)).
  vm_compute. reflexivity.
Defined.

(** * Properties of model construction *)

Section ConstructionProperties.

Lemma construct_ok {A} (v : validated A) (r : A) :
  construct v = Ok r <-> v = inr r.
Proof.
  destruct v; cbn; split; intros E; try discriminate; inversion E; reflexivity.
Qed.

Lemma ap_inr {A B} (f : validated (A -> B)) (x : validated A) (r : B) :
  f <&> x = inr r <-> exists g v, f = inr g /\ x = inr v /\ r = g v.
Proof.
  destruct f as [e1|g], x as [e2|v]; cbn; split.
  all: try (intros E; discriminate E).
  all: try (intros (g' & v' & E1 & E2 & _); discriminate).
  - intros [= <-]. eauto.
  - intros (g' & v' & [= <-] & [= <-] & ->). reflexivity.
Qed.

Lemma required_accept_inr {A} (loc : string) (x : arg A) (v : A) :
  required_field loc accept x = inr v <-> x = Value v.
Proof.
  destruct x; cbn; split; intros E; try discriminate; inversion E; reflexivity.
Qed.

Lemma optional_plain_inr {A} (loc : string) (x : arg A) :
  optional_field loc accept (fun v => v) false x = inr (stored_optional x).
Proof. destruct x; reflexivity. Qed.

End ConstructionProperties.

(** Take a successful chain of fields apart, last field first. *)
Ltac fields_of E :=
  repeat
    (let g := fresh "g" in
     let v := fresh "v" in
     let Ex := fresh "Ex" in
     let Er := fresh "Er" in
     apply ap_inr in E; destruct E as (g & v & E & Ex & Er);
     first [ apply required_accept_inr in Ex
           | rewrite optional_plain_inr in Ex; injection Ex as Ex ]);
  injection E as E; subst.

(** X8: a [CountryDTO] is constructed exactly when every field but
    [capital_area] is given with a value; the fields hold the values
    given ([alt_spellings] and [timezones] in the order given), and
    [capital_area] holds the value given, or [None] when it was left out
    or [None]. *)
Theorem country_requires_all_but_area
    (capital alpha2code : arg string) (alt_spellings : arg (list string))
    (currencies : arg (list CurrencyInfoDTO)) (flag : arg string)
    (languages : arg (list LanguagesInfoDTO)) (name : arg string)
    (population : arg Z) (subregion : arg string)
    (capital_latitude capital_longitude capital_area : arg spec_float)
    (timezones : arg (list string)) (c : CountryDTO) :
  CountryDTO_new capital alpha2code alt_spellings currencies flag languages name
                 population subregion capital_latitude capital_longitude
                 capital_area timezones = Ok c
  <-> capital = Value (country_capital c)
      /\ alpha2code = Value (country_alpha2code c)
      /\ alt_spellings = Value (Models.alt_spellings c)
      /\ currencies = Value (Models.currencies c)
      /\ flag = Value (Models.flag c)
      /\ languages = Value (Models.languages c)
      /\ name = Value (country_name c)
      /\ population = Value (Models.population c)
      /\ subregion = Value (Models.subregion c)
      /\ capital_latitude = Value (Models.capital_latitude c)
      /\ capital_longitude = Value (Models.capital_longitude c)
      /\ stored_optional capital_area = Models.capital_area c
      /\ timezones = Value (Models.timezones c).
Proof.
  unfold CountryDTO_new. split.
  - intros E. apply construct_ok in E. fields_of E. cbn. repeat split.
  - intros (-> & -> & -> & -> & -> & -> & -> & -> & -> & -> & -> & Ha & ->).
    destruct c; cbn in *. subst. destruct capital_area; reflexivity.
Qed.

(** X9: a [CurrencyRatesDTO] is constructed exactly when [base],
    [date] and [rates] are all given with a value, and it holds these
    values. *)
Theorem currency_rates_dto_requires_all_fields
    (base date : arg string) (rates : arg (list (string * spec_float)))
    (r : CurrencyRatesDTO) :
  CurrencyRatesDTO_new base date rates = Ok r
  <-> base = Value (MoreModels.base r)
      /\ date = Value (MoreModels.date r)
      /\ rates = Value (MoreModels.rates r).
Proof.
  unfold CurrencyRatesDTO_new. split.
  - intros E. apply construct_ok in E. fields_of E. cbn. repeat split.
  - intros (-> & -> & ->). destruct r; reflexivity.
Qed.

(** X10: a [WeatherInfoDTO] is constructed exactly when all of its
    eight fields are given with a value, and it holds these values. *)
Theorem weather_requires_all_fields
    (temp : arg spec_float) (pressure humidity : arg Z)
    (wind_speed : arg spec_float) (description : arg string)
    (visibility : arg spec_float) (timezone : arg Z)
    (date_time : arg datetime) (w : WeatherInfoDTO) :
  WeatherInfoDTO_new temp pressure humidity wind_speed description visibility
                     timezone date_time = Ok w
  <-> temp = Value (Models.temp w)
      /\ pressure = Value (Models.pressure w)
      /\ humidity = Value (Models.humidity w)
      /\ wind_speed = Value (Models.wind_speed w)
      /\ description = Value (Models.description w)
      /\ visibility = Value (Models.visibility w)
      /\ timezone = Value (Models.timezone w)
      /\ date_time = Value (Models.date_time w).
Proof.
  unfold WeatherInfoDTO_new. split.
  - intros E. apply construct_ok in E. fields_of E. cbn. repeat split.
  - intros (-> & -> & -> & -> & -> & -> & -> & ->). destruct w; reflexivity.
Qed.

(** X11: a [LocationInfoDTO] is constructed exactly when [location],
    [weather] and [currency_rates] are given with a value, so leaving
    [currency_rates] out (or passing [None]) fails; it holds the values
    given, and [news] holds the list given, in its order, or [None]. *)
Theorem location_info_stores_what_it_is_given
    (l : arg CountryDTO) (w : arg WeatherInfoDTO)
    (c : arg (list (string * spec_float))) (n : arg (list NewsDTO))
    (i : LocationInfoDTO) :
  LocationInfoDTO_new l w c n = Ok i
  <-> l = Value (location i)
      /\ w = Value (weather i)
      /\ c = Value (currency_rates i)
      /\ stored_optional n = news i.
Proof.
  unfold LocationInfoDTO_new. split.
  - intros E. apply construct_ok in E. fields_of E. cbn. repeat split.
  - intros (-> & -> & -> & Hn). destruct i; cbn in *. subst. destruct n; reflexivity.
Qed.

Section NewsProperties.

Lemma optional_author_inr (a : arg string) :
  optional_field "author" accept validate_author false a
  = inr match a with
        | Omitted => None
        | PyNone => Some "unknown"
        | Value v => if String.eqb v "" then Some "unknown" else Some v
        end.
Proof. destruct a; reflexivity. Qed.

End NewsProperties.

(** X1: a [NewsDTO] is constructed exactly when [title], [description],
    [source], [url] and [published_at] are given with a value (not left
    out, not [None]), whatever the [author] argument is; the fields hold
    the values given, and [author] holds [None] when the argument was left
    out, ["unknown"] for [None] and the empty string, the text otherwise. *)
Theorem news_requires_all_but_author
    (t a d s u : arg string) (p : arg datetime) (n : NewsDTO) :
  NewsDTO_new t a d s u p = Ok n
  <-> t = Value (title n)
      /\ d = Value (news_description n)
      /\ s = Value (source n)
      /\ u = Value (url n)
      /\ p = Value (published_at n)
      /\ author n = match a with
                    | Omitted => None
                    | PyNone => Some "unknown"
                    | Value v => if String.eqb v "" then Some "unknown" else Some v
                    end.
Proof.
  unfold NewsDTO_new. split.
  - intros E. apply construct_ok in E.
    apply ap_inr in E. destruct E as (g5 & v5 & E & E5 & ->).
    apply ap_inr in E. destruct E as (g4 & v4 & E & E4 & ->).
    apply ap_inr in E. destruct E as (g3 & v3 & E & E3 & ->).
    apply ap_inr in E. destruct E as (g2 & v2 & E & E2 & ->).
    apply ap_inr in E. destruct E as (ga & va & E & Ea & ->).
    apply ap_inr in E. destruct E as (g1 & v1 & E & E1 & ->).
    injection E as <-.
    apply required_accept_inr in E1, E2, E3, E4, E5. subst.
    rewrite optional_author_inr in Ea. injection Ea as <-.
    cbn. repeat split.
  - intros (-> & -> & -> & -> & -> & Ha).
    rewrite (proj2 (construct_ok _ n)); [reflexivity|].
    cbn [required_field accept]. rewrite optional_author_inr, <- Ha.
    destruct n; reflexivity.
Qed.

(** X2: when a required field of [NewsDTO] is left out or [None], the
    validation error lists every such field, in the order the class
    declares them ("field required" for one left out, "none is not an
    allowed value" for [None]); the [author] argument never adds an
    entry. *)
Theorem news_reports_every_missing_field
    (t a d s u : arg string) (p : arg datetime) :
  let errors :=
    (required_errors "title" t ++ required_errors "description" d
     ++ required_errors "source" s ++ required_errors "url" u
     ++ required_errors "published_at" p)%list in
  errors <> [] ->
  NewsDTO_new t a d s u p = Raise (ValidationError errors).
Proof.
  destruct t, a, d, s, u, p; cbn; intros H; try reflexivity; contradiction.
Qed.

Lemma news_reports_every_missing_field_witness :
  NewsDTO_new Omitted (Value "Ion") PyNone (Value "Adevarul.ro") Omitted
              (Value sample_published_at)
  = Raise (ValidationError [("title", MissingError);
                            ("description", NoneIsNotAllowedError);
                            ("url", MissingError)]).
Proof.
  apply (news_reports_every_missing_field
           Omitted (Value "Ion") PyNone (Value "Adevarul.ro") Omitted
           (Value sample_published_at)).
  discriminate.
Defined.

(** X3: [validate_author] applied twice is [validate_author] applied
    once, and the values it leaves as they are are exactly the non-empty
    strings. *)
Theorem validate_author_idempotent (v : option string) :
  validate_author (validate_author v) = validate_author v
  /\ (validate_author v = v <-> exists s, v = Some s /\ s <> "").
Proof.
  split.
  - destruct v as [s|]; cbn; [|reflexivity].
    destruct (String.eqb_spec s "") as [->|Hs]; cbn; [reflexivity|].
    destruct (String.eqb_spec s ""); [contradiction | reflexivity].
  - split.
    + destruct v as [s|]; cbn; [|discriminate].
      destruct (String.eqb_spec s "") as [->|Hs]; [discriminate|].
      intros _. eauto.
    + intros (s & -> & Hs). cbn.
      destruct (String.eqb_spec s ""); [contradiction | reflexivity].
Qed.

(** X4: when [capital] is left out or [None] and [alpha2code] is left
    out, [None] or not of length 2, the validation error of [LocationDTO]
    has both entries, the one of [capital] first: validation does not stop
    at the first field that fails. *)
Theorem location_reports_both_fields (c a : arg string) :
  (forall v, c <> Value v) ->
  (forall s, a = Value s -> len s <> 2) ->
  exists e1 e2,
    LocationDTO_new c a
    = Raise (ValidationError [("capital", e1); ("alpha2code", e2)]).
Proof.
  intros Hc Ha. unfold LocationDTO_new.
  destruct c as [| |v]; [| |exfalso; exact (Hc v eq_refl)];
    (destruct a as [| |s]; [do 2 eexists; reflexivity | do 2 eexists; reflexivity |]);
    cbn; rewrite constr_length_validator_2_2;
    (destruct (Nat.eqb_spec (len s) 2) as [E|_]; [exfalso; exact (Ha s eq_refl E)|]);
    destruct (len s <? 2)%nat; do 2 eexists; reflexivity.
Qed.

Lemma location_reports_both_fields_witness :
  LocationDTO_new PyNone (Value "RUS")
  = Raise (ValidationError [("capital", NoneIsNotAllowedError);
                            ("alpha2code", AnyStrMaxLengthError 2)]).
Proof.
  destruct (location_reports_both_fields PyNone (Value "RUS")) as (e1 & e2 & E).
  - discriminate.
  - intros s [= <-]. cbn. discriminate.
  - reflexivity.
Defined.

(** X5: assigning an [alpha2code] whose length is not 2 to a
    [LocationDTO] is accepted and stored as it is, the capital unchanged,
    although constructing a [LocationDTO] with that capital and that
    [alpha2code] raises a validation error: the length constraint is
    checked at construction only. *)
Theorem location_assignment_is_not_validated (d : LocationDTO) (v : string) :
  len v <> 2 ->
  LocationDTO_setattr d "alpha2code" v = Ok {| capital := capital d; alpha2code := v |}
  /\ exists errors,
       LocationDTO_new (Value (capital d)) (Value v) = Raise (ValidationError errors).
Proof.
  intros Hv. split; [reflexivity|].
  unfold LocationDTO_new. cbn. rewrite constr_length_validator_2_2.
  destruct (Nat.eqb_spec (len v) 2); [contradiction|].
  destruct (len v <? 2)%nat; eexists; reflexivity.
Qed.

Lemma location_assignment_is_not_validated_witness :
  LocationDTO_new (Value "Moscow") (Value "RU")
  = Ok {| capital := "Moscow"; alpha2code := "RU" |}
  /\ LocationDTO_setattr {| capital := "Moscow"; alpha2code := "RU" |} "alpha2code" "RUS"
     = Ok {| capital := "Moscow"; alpha2code := "RUS" |}
  /\ exists errors,
       LocationDTO_new (Value "Moscow") (Value "RUS") = Raise (ValidationError errors).
Proof.
  split; [reflexivity|].
  apply (location_assignment_is_not_validated
           {| capital := "Moscow"; alpha2code := "RU" |} "RUS").
  cbn. discriminate.
Defined.

(** X6: for objects of the three classes that derive from
    [HashableBaseModel] ([LocationDTO], [CurrencyInfoDTO],
    [LanguagesInfoDTO]), equal objects are of the same class and have the
    same hash, as sets and dicts require. *)
Theorem hashable_equal_have_same_hash `{Builtins} (x y : instance) :
  hashable_dto x -> hashable_dto y ->
  __eq__ x y = true ->
  type x = type y /\ __hash__ x = __hash__ y.
Proof.
  intros Hx Hy. destruct Hx as [i [c a]|i [c]|i [n nn]], Hy as [j [c' a']|j [c']|j [n' nn']];
    unfold __eq__, dict_subset, dict_get; cbn; try discriminate.
  - rewrite !andb_true_r, !andb_true_iff, !String.eqb_eq.
    intros [[-> ->] _]. split; reflexivity.
  - rewrite !andb_true_r, !andb_true_iff, !String.eqb_eq.
    intros [-> _]. split; reflexivity.
  - rewrite !andb_true_r, !andb_true_iff, !String.eqb_eq.
    intros [[-> ->] _]. split; reflexivity.
Qed.

Lemma hashable_equal_have_same_hash_witness :
  @__hash__ plain_builtins (CurrencyInfoDTO_instance 1 {| code := "EUR" |})
  = @__hash__ plain_builtins (CurrencyInfoDTO_instance 2 {| code := "EUR" |}).
Proof.
  exact (proj2 (@hashable_equal_have_same_hash plain_builtins
                  (CurrencyInfoDTO_instance 1 {| code := "EUR" |})
                  (CurrencyInfoDTO_instance 2 {| code := "EUR" |})
                  (hashable_currency 1 _) (hashable_currency 2 _) eq_refl)).
Defined.

(** ** Sets of hashable objects *)

Section SetProperties.

Context `{Builtins}.









End SetProperties.



(** * More properties of the population text *)

Section PopulationProperties.









End PopulationProperties.





(** * More properties of the languages and currency texts *)

Section TextProperties.

Lemma join_empty_iff (sep : string) (parts : list string) :
  Forall (fun p => p <> "") parts ->
  (join sep parts = "" <-> parts = []).
Proof.
  intros Hp. split; [|intros ->; reflexivity].
  destruct parts as [|p ps]; [reflexivity|]. intros E. exfalso.
  inversion Hp as [|? ? Hne _]; subst.
  destruct p as [|c p]; [contradiction|].
  destruct ps; cbn [join] in E; [|rewrite append_cons in E]; discriminate.
Qed.

Lemma append_eq_empty (a b : string) : a +:+ b = "" -> a = "" /\ b = "".
Proof.
  destruct a as [|c a]; [rewrite append_empty_l; auto|].
  rewrite append_cons. discriminate.
Qed.

Lemma ndigits_gt (c L : N) : (10 ^ L <= c)%N -> (Z.of_N L < ndigits c)%Z.
Proof.
  intros Hc. unfold ndigits.
  destruct (digits_spec c) as (_ & _ & _ & Hub & _).
  assert (Hp : (10 ^ L < 10 ^ N.of_nat (length (digits c)))%N)
    by (eapply N.le_lt_trans; eassumption).
  apply N.pow_lt_mono_r_iff in Hp; lia.
Qed.

(** The coefficient after [_rescale] to two decimals, whatever its size. *)
Lemma rescale_hundredths (s : bool) (c t P D : N) :
  (0 < c)%N -> (0 < D)%N ->
  (c * D = P * 10 ^ t)%N ->
  _rescale s c (- Z.of_N t) (-2) ROUND_HALF_UP
  = Finite s ((200 * P + D) / (2 * D)) (-2).
Proof.
  intros Hc HD Hv. unfold _rescale.
  destruct (N.eqb_spec c 0) as [|_]; [lia|].
  destruct (Z.leb_spec (-2) (- Z.of_N t)) as [Hsmall|Hlarge].
  - f_equal. apply (N.div_unique _ _ _ D); [lia|].
    assert (Ht : (t = 0 \/ t = 1 \/ t = 2)%N) by lia.
    destruct Ht as [-> | [-> | ->]];
      match goal with
      | |- context [(10 ^ ?x)%N] =>
          let v := eval vm_compute in (10 ^ x)%N in
          change (10 ^ x)%N with v
      end;
      match type of Hv with
      | context [(10 ^ ?x)%N] =>
          let v := eval vm_compute in (10 ^ x)%N in
          change (10 ^ x)%N with v in Hv
      end; lia.
  - set (k := Z.to_N (-2 - - Z.of_N t)).
    assert (Hk : (t = k + 2)%N) by lia.
    assert (Hk0 : (0 < k)%N) by lia.
    cbn zeta. rewrite <- half_up_first_digit by exact Hk0.
    f_equal. symmetry. apply N_div_cross.
    + lia.
    + assert (0 < 10 ^ k)%N by (apply N.neq_0_lt_0, N.pow_nonzero; lia). lia.
    + rewrite Hk, N.pow_add_r in Hv. change (10 ^ 2)%N with 100%N in Hv.
      set (T := (10 ^ k)%N) in *. clearbody T. nia.
Qed.

(** Past 28 digits the quantization is an invalid operation. *)
Lemma quantize_hundredths_fails (s : bool) (c t P D : N) :
  (0 < c)%N -> (0 < D)%N ->
  (c * D = P * 10 ^ t)%N ->
  (10 ^ 28 <= (200 * P + D) / (2 * D))%N ->
  quantize DefaultContext (Finite s c (- Z.of_N t)) (Finite false 1 (-2))
           ROUND_HALF_UP
  = Raise InvalidOperation.
Proof.
  intros Hc HD Hv HR. unfold quantize.
  replace (negb ((Etiny DefaultContext <=? -2)%Z && (-2 <=? Emax DefaultContext)%Z))
    with false by reflexivity.
  destruct (N.eqb_spec c 0) as [|_]; [lia|].
  destruct (Emax DefaultContext <? adjusted c (- Z.of_N t))%Z; [reflexivity|].
  destruct (prec DefaultContext <? adjusted c (- Z.of_N t) - -2 + 1)%Z; [reflexivity|].
  rewrite (rescale_hundredths s c t P D Hc HD Hv).
  destruct (Emax DefaultContext <? adjusted ((200 * P + D) / (2 * D)) (-2))%Z;
    [reflexivity|].
  pose proof (ndigits_gt _ 28 HR) as Hn. cbn [prec DefaultContext].
  destruct (Z.ltb_spec 28 (ndigits ((200 * P + D) / (2 * D)))) as [_|]; [reflexivity|lia].
Qed.

Lemma roundable_dec (rate : spec_float) : roundable rate \/ ~ roundable rate.
Proof.
  unfold roundable. destruct (is_finite rate); [|right; intros [[=] _]].
  destruct (N.lt_ge_cases (half_up_hundredths rate) (10 ^ 28)) as [Hlt|Hge].
  - left. auto.
  - right. intros [_ Hlt]. lia.
Qed.

Lemma formattable_dec (rate : spec_float) : formattable rate \/ ~ formattable rate.
Proof.
  unfold formattable. destruct rate as [s|s| |s m e].
  - destruct (roundable_dec (S754_zero s)); [auto|right; intros [[=]|]; auto].
  - destruct (roundable_dec (S754_infinity s)); [auto|right; intros [[=]|]; auto].
  - auto.
  - destruct (roundable_dec (S754_finite s m e)); [auto|right; intros [[=]|]; auto].
Qed.

Lemma format_rate_formattable (item : string * spec_float) :
  formattable item.2 -> format_rate item = Ok (entry_text item).
Proof.
  destruct item as [currency rate]. cbn [snd]. intros [-> | Hr]; [reflexivity|].
  rewrite (format_rate_rounds currency rate Hr). unfold entry_text. cbn [fst snd].
  destruct rate; try reflexivity. destruct Hr as [[=] _].
Qed.

Lemma format_rate_unformattable (item : string * spec_float) :
  ~ formattable item.2 -> format_rate item = Raise InvalidOperation.
Proof.
  destruct item as [currency rate]. cbn [snd]. unfold formattable. intros Hn.
  destruct rate as [s|s| |s m e].
  - exfalso. apply Hn. right. split; [reflexivity|]. vm_compute. reflexivity.
  - reflexivity.
  - exfalso. auto.
  - unfold format_rate.
    destruct (from_float_exact s m e) as (c & t & P & D & -> & Hc & HD & Hv & Hh).
    rewrite (quantize_hundredths_fails s c t P D Hc HD Hv); [reflexivity|].
    rewrite <- Hh.
    destruct (N.lt_ge_cases (half_up_hundredths (S754_finite s m e)) (10 ^ 28))
      as [Hlt|Hge]; [|exact Hge].
    exfalso. apply Hn. right. split; [reflexivity | exact Hlt].
Qed.

Lemma traverse_format_rate (items : list (string * spec_float)) :
  (Forall (fun item => formattable item.2) items
   /\ traverse format_rate items = Ok (map entry_text items))
  \/ (~ Forall (fun item => formattable item.2) items
      /\ traverse format_rate items = Raise InvalidOperation).
Proof.
  induction items as [|item items IH].
  - left. split; [constructor | reflexivity].
  - cbn [traverse map].
    destruct (formattable_dec item.2) as [Hf|Hn].
    + rewrite (format_rate_formattable item Hf). cbn [mbind result_bind Py.bind].
      destruct IH as [[Hall ->]|[Hnot ->]].
      * left. split; [constructor; assumption | reflexivity].
      * right. split; [|reflexivity]. intros Hall. inversion Hall; auto.
    + rewrite (format_rate_unformattable item Hn). right.
      split; [|reflexivity]. intros Hall. inversion Hall; auto.
Qed.

Lemma format_currency_rates_cases (location_info : LocationInfoDTO) :
  (Forall (fun item => formattable item.2) (currency_rates location_info)
   /\ _format_currency_rates location_info
      = Ok (join ", " (map entry_text (currency_rates location_info))))
  \/ (~ Forall (fun item => formattable item.2) (currency_rates location_info)
      /\ _format_currency_rates location_info = Raise InvalidOperation).
Proof.
  unfold _format_currency_rates.
  destruct (traverse_format_rate (currency_rates location_info)) as [[Ha ->]|[Hn ->]];
    [left | right]; split; auto.
Qed.

End TextProperties.

(** X15: the languages text is the empty string exactly when the
    country has no language. *)
Theorem languages_text_is_empty_without_languages (location_info : LocationInfoDTO) :
  _format_languages location_info = "" <-> languages (location location_info) = [].
Proof.
  unfold _format_languages. rewrite join_empty_iff.
  - split; [apply map_eq_nil | intros ->; reflexivity].
  - apply List.Forall_forall. intros p Hp. apply in_map_iff in Hp as (item & <- & _).
    intros E. apply append_eq_empty in E as [_ E].
    rewrite append_cons in E. discriminate.
Qed.

(** X16: formatting the currency rates succeeds exactly when every
    rate is a NaN or a finite rate whose value rounded to hundredths has
    at most 28 digits; when it fails, the exception is
    [InvalidOperation]. *)
Theorem currency_text_fails_exactly_on_unformattable_rates
    (location_info : LocationInfoDTO) :
  (is_ok (_format_currency_rates location_info) = true
   <-> Forall (fun item => formattable item.2) (currency_rates location_info))
  /\ (forall e, _format_currency_rates location_info = Raise e -> e = InvalidOperation).
Proof.
  destruct (format_currency_rates_cases location_info) as [[Ha ->]|[Hn ->]]; split.
  - split; [intros _; exact Ha | reflexivity].
  - discriminate.
  - split; [discriminate | intros Ha; contradiction].
  - intros e [= <-]. reflexivity.
Qed.

(** X17: when every rate is a NaN or can be rounded, the currency text
    is the entries in order joined with ", ", where the entry of a NaN
    rate is "<code> = NaN руб." and the entry of any other rate is the
    rounded one; the empty mapping gives the empty text. *)
Theorem currency_text_with_nan (location_info : LocationInfoDTO) :
  Forall (fun item => formattable item.2) (currency_rates location_info) ->
  _format_currency_rates location_info
  = Ok (join ", " (map entry_text (currency_rates location_info))).
Proof.
  intros Ha.
  destruct (format_currency_rates_cases location_info) as [[_ E]|[Hn _]];
    [exact E | contradiction].
Qed.

Lemma currency_text_with_nan_witness :
  _format_currency_rates
    (sample_info_rates [("EUR", rate_0_016503); ("XXX", S754_nan);
                        ("USD", S754_zero true)])
  = Ok "EUR = 0.02 руб., XXX = NaN руб., USD = -0.00 руб.".
Proof.
  rewrite (currency_text_with_nan
             (sample_info_rates [("EUR", rate_0_016503); ("XXX", S754_nan);
                                 ("USD", S754_zero true)])).
  - vm_compute. reflexivity.
  - apply List.Forall_cons; [right; split; [reflexivity | vm_compute; reflexivity]|].
    apply List.Forall_cons; [left; reflexivity|].
    apply List.Forall_cons; [right; split; [reflexivity | vm_compute; reflexivity]|].
    apply List.Forall_nil.
Defined.

(** * More properties of the rendering *)


(** X19: a rendering consists of the location table, "Погода:", the
    weather table, "Новости" and the news table; the location and weather
    tables have their field names and exactly one row, every row of every
    table has one value per field (10, 5 and 6), and only the news table
    has width limits (25, 25 and 45 for title, link and description). *)
Theorem render_tables_are_well_formed
    `{Builtins} `{Clib} (location_info : LocationInfoDTO)
    (info_table : PrettyTable) (s1 : string) (weather_table : PrettyTable)
    (s2 : string) (news_table : PrettyTable) :
  render location_info = Ok (info_table, s1, weather_table, s2, news_table) ->
  s1 = "Погода:" /\ s2 = "Новости"
  /\ field_names info_table = info_field_names
  /\ field_names weather_table = weather_field_names
  /\ field_names news_table = news_field_names
  /\ length (rows info_table) = 1%nat
  /\ length (rows weather_table) = 1%nat
  /\ Forall (fun row => length row = 10%nat) (rows info_table)
  /\ Forall (fun row => length row = 5%nat) (rows weather_table)
  /\ Forall (fun row => length row = 6%nat) (rows news_table)
  /\ _max_width info_table = []
  /\ _max_width weather_table = []
  /\ _max_width news_table
     = [("Название", 25%Z); ("Ссылка", 25%Z); ("Описание", 45%Z)].
Proof.
  rewrite render_steps. intros E.
  destruct (first_item _) as [tz|]; [|discriminate]. cbn in E.
  destruct (_format_currency_rates location_info) as [rt|]; [|discriminate].
  cbn in E. destruct (iterate (news location_info)) as [articles|]; [|discriminate].
  cbn in E. injection E as <- <- <- <- <-. cbn [field_names rows _max_width].
  repeat (split; [reflexivity|]).
  split; [repeat constructor|]. split; [repeat constructor|].
  split; [|repeat split].
  apply List.Forall_forall. intros row Hrow.
  apply in_map_iff in Hrow as (article & <- & _). reflexivity.
Qed.

Lemma render_tables_are_well_formed_witness :
  exists t,
    @render plain_builtins plain_clib (sample_info (Some [])) = Ok t
    /\ rows t.2 = []
    /\ field_names t.2 = news_field_names
    /\ length (rows t.1.1.1.1) = 1%nat.
Proof.
  destruct (@render plain_builtins plain_clib (sample_info (Some [])))
    as [[[[[it s1] wt] s2] nt]|e] eqn:E; [|vm_compute in E; discriminate E].
  exists (it, s1, wt, s2, nt).
  pose proof (@render_tables_are_well_formed plain_builtins plain_clib
                (sample_info (Some [])) it s1 wt s2 nt E)
    as (_ & _ & _ & _ & Hn & Hi & _).
  split; [reflexivity|]. split; [|split; assumption].
  vm_compute in E. injection E as _ _ _ _ <-. reflexivity.
Defined.

(** X20: in a rendering the area column is the area followed by
    " кв. км."; a country without [capital_area] is shown with the text
    "None кв. км.". *)
Theorem area_column_shows_none_without_area
    `{Builtins} `{Clib} (location_info : LocationInfoDTO)
    (info_table : PrettyTable) (s1 : string) (weather_table : PrettyTable)
    (s2 : string) (news_table : PrettyTable) :
  render location_info = Ok (info_table, s1, weather_table, s2, news_table) ->
  exists row,
    rows info_table = [row]
    /\ column (field_names info_table) row "Площадь"
       = Some (CStr match capital_area (location location_info) with
                    | Some area => float_str area +:+ " кв. км."
                    | None => "None кв. км."
                    end).
Proof.
  rewrite render_steps. intros E.
  destruct (first_item _) as [tz|]; [|discriminate]. cbn in E.
  destruct (_format_currency_rates location_info) as [rt|]; [|discriminate].
  cbn in E. destruct (iterate (news location_info)) as [articles|]; [|discriminate].
  cbn in E. injection E as <- <- <- <- <-.
  eexists. split; [reflexivity|]. cbn. unfold optional_float_str.
  destruct (capital_area (location location_info)); reflexivity.
Qed.

Lemma area_column_shows_none_without_area_witness :
  let info := {| location := sample_country_no_area; weather := sample_weather;
                 currency_rates := [("EUR", rate_0_016503)]; news := Some [] |} in
  exists t row,
    @render plain_builtins plain_clib info = Ok t
    /\ rows t.1.1.1.1 = [row]
    /\ column (field_names t.1.1.1.1) row "Площадь" = Some (CStr "None кв. км.").
Proof.
  intros info.
  destruct (@render plain_builtins plain_clib info)
    as [[[[[it s1] wt] s2] nt]|e] eqn:E; [|vm_compute in E; discriminate E].
  destruct (@area_column_shows_none_without_area plain_builtins plain_clib
              info it s1 wt s2 nt E) as (row & Hrows & Hcol).
  exists (it, s1, wt, s2, nt), row. auto.
Defined.

(** X21: an article constructed without the [author] argument is
    shown in the news table with the author "None". *)
Theorem article_without_author_shows_none
    `{Builtins} `{Clib} (location_info : LocationInfoDTO)
    (t d s u : arg string) (p : arg datetime) (article : NewsDTO)
    (articles : list NewsDTO) (i : nat)
    (info_table : PrettyTable) (s1 : string) (weather_table : PrettyTable)
    (s2 : string) (news_table : PrettyTable) :
  NewsDTO_new t Omitted d s u p = Ok article ->
  news location_info = Some articles ->
  articles !! i = Some article ->
  render location_info = Ok (info_table, s1, weather_table, s2, news_table) ->
  exists row,
    rows news_table !! i = Some row
    /\ column (field_names news_table) row "Автор" = Some (CStr "None").
Proof.
  intros Hnew Hnews Hi. rewrite render_steps, Hnews. intros E.
  apply NewsDTO_new_author in Hnew.
  destruct (first_item _) as [tz|]; [|discriminate]. cbn in E.
  destruct (_format_currency_rates location_info) as [rt|]; [|discriminate].
  cbn in E. injection E as <- <- <- <- <-. cbn [rows field_names].
  exists (news_row article). split.
  - rewrite list_lookup_fmap, Hi. reflexivity.
  - cbn. rewrite Hnew. reflexivity.
Qed.

Lemma article_without_author_shows_none_witness :
  let info := {| location := sample_country; weather := sample_weather;
                 currency_rates := []; news := Some [sample_article_no_author] |} in
  NewsDTO_new (Value "Title") Omitted (Value "Text") (Value "Adevarul.ro")
              (Value "https://adevarul.ro/") (Value sample_published_at)
  = Ok sample_article_no_author
  /\ exists t row,
       @render plain_builtins plain_clib info = Ok t
       /\ rows t.2 !! 0%nat = Some row
       /\ column (field_names t.2) row "Автор" = Some (CStr "None").
Proof.
  intros info. split; [reflexivity|].
  destruct (@render plain_builtins plain_clib info)
    as [[[[[it s1] wt] s2] nt]|e] eqn:E; [|vm_compute in E; discriminate E].
  destruct (@article_without_author_shows_none plain_builtins plain_clib info
              (Value "Title") (Value "Text") (Value "Adevarul.ro")
              (Value "https://adevarul.ro/") (Value sample_published_at)
              sample_article_no_author [sample_article_no_author] 0
              it s1 wt s2 nt eq_refl eq_refl eq_refl E) as (row & Hrow & Hcol).
  exists (it, s1, wt, s2, nt), row. auto.
Defined.

(** X22: in a rendering the columns of the location row hold, under
    their names, the country's name, capital, latitude, longitude and
    subregion, the population text followed by " чел.", the languages
    text and the currency text. *)
Theorem location_row_holds_the_formatted_texts
    `{Builtins} `{Clib} (location_info : LocationInfoDTO)
    (info_table : PrettyTable) (s1 : string) (weather_table : PrettyTable)
    (s2 : string) (news_table : PrettyTable) :
  render location_info = Ok (info_table, s1, weather_table, s2, news_table) ->
  exists row rates_text,
    rows info_table = [row]
    /\ _format_currency_rates location_info = Ok rates_text
    /\ column (field_names info_table) row "Страна"
       = Some (CStr (country_name (location location_info)))
    /\ column (field_names info_table) row "Столица"
       = Some (CStr (country_capital (location location_info)))
    /\ column (field_names info_table) row "Широта"
       = Some (CFloat (capital_latitude (location location_info)))
    /\ column (field_names info_table) row "Долгота"
       = Some (CFloat (capital_longitude (location location_info)))
    /\ column (field_names info_table) row "Регион"
       = Some (CStr (subregion (location location_info)))
    /\ column (field_names info_table) row "Население страны"
       = Some (CStr (_format_population location_info +:+ " чел."))
    /\ column (field_names info_table) row "Языки"
       = Some (CStr (_format_languages location_info))
    /\ column (field_names info_table) row "Курсы валют"
       = Some (CStr rates_text).
Proof.
  rewrite render_steps. intros E.
  destruct (first_item _) as [tz|]; [|discriminate]. cbn in E.
  destruct (_format_currency_rates location_info) as [rt|]; [|discriminate].
  cbn in E. destruct (iterate (news location_info)) as [articles|]; [|discriminate].
  cbn in E. injection E as <- <- <- <- <-.
  exists (info_row location_info tz rt), rt. repeat split.
Qed.

Lemma location_row_holds_the_formatted_texts_witness :
  exists t row,
    @render plain_builtins plain_clib (sample_info (Some [])) = Ok t
    /\ rows t.1.1.1.1 = [row]
    /\ column (field_names t.1.1.1.1) row "Население страны"
       = Some (CStr "28.875 чел.")
    /\ column (field_names t.1.1.1.1) row "Языки" = Some (CStr "Swedish (svenska)")
    /\ column (field_names t.1.1.1.1) row "Курсы валют"
       = Some (CStr "EUR = 0.02 руб.").
Proof.
  destruct (@render plain_builtins plain_clib (sample_info (Some [])))
    as [[[[[it s1] wt] s2] nt]|e] eqn:E; [|vm_compute in E; discriminate E].
  destruct (@location_row_holds_the_formatted_texts plain_builtins plain_clib
              (sample_info (Some [])) it s1 wt s2 nt E)
    as (row & rt & Hrows & Hrt & _ & _ & _ & _ & _ & Hp & Hl & Hr).
  exists (it, s1, wt, s2, nt), row.
  split; [reflexivity|]. split; [exact Hrows|].
  split; [exact Hp|]. split; [exact Hl|].
  refine (eq_trans Hr _). vm_compute in Hrt. injection Hrt as <-. reflexivity.
Defined.

(** X23: in a rendering the columns of the weather row hold, under
    their names, the temperature followed by " °C", the description, the
    visibility followed by " м.", the wind speed followed by " м/с." and
    the time of the reading in the format "%d.%m.%Y %H:%M". *)
Theorem weather_row_holds_the_weather
    `{Builtins} `{Clib} (location_info : LocationInfoDTO)
    (info_table : PrettyTable) (s1 : string) (weather_table : PrettyTable)
    (s2 : string) (news_table : PrettyTable) :
  render location_info = Ok (info_table, s1, weather_table, s2, news_table) ->
  exists row,
    rows weather_table = [row]
    /\ column (field_names weather_table) row "Температура"
       = Some (CStr (float_str (temp (weather location_info)) +:+ " °C"))
    /\ column (field_names weather_table) row "Описание"
       = Some (CStr (description (weather location_info)))
    /\ column (field_names weather_table) row "Видимость"
       = Some (CStr (float_str (visibility (weather location_info)) +:+ " м."))
    /\ column (field_names weather_table) row "Скорость ветра"
       = Some (CStr (float_str (wind_speed (weather location_info)) +:+ " м/с."))
    /\ column (field_names weather_table) row "Время получения данных"
       = Some (CStr (strftime (date_time (weather location_info)) "%d.%m.%Y %H:%M")).
Proof.
  rewrite render_steps. intros E.
  destruct (first_item _) as [tz|]; [|discriminate]. cbn in E.
  destruct (_format_currency_rates location_info) as [rt|]; [|discriminate].
  cbn in E. destruct (iterate (news location_info)) as [articles|]; [|discriminate].
  cbn in E. injection E as <- <- <- <- <-.
  exists (weather_row location_info). repeat split.
Qed.

Lemma weather_row_holds_the_weather_witness :
  exists t row,
    @render plain_builtins plain_clib (sample_info (Some [])) = Ok t
    /\ rows t.1.1.2 = [row]
    /\ column (field_names t.1.1.2) row "Описание" = Some (CStr "scattered clouds")
    /\ column (field_names t.1.1.2) row "Время получения данных"
       = Some (CStr "30.03.2023 12:23").
Proof.
  destruct (@render plain_builtins plain_clib (sample_info (Some [])))
    as [[[[[it s1] wt] s2] nt]|e] eqn:E; [|vm_compute in E; discriminate E].
  destruct (@weather_row_holds_the_weather plain_builtins plain_clib
              (sample_info (Some [])) it s1 wt s2 nt E)
    as (row & Hrows & _ & Hd & _ & _ & Ht).
  exists (it, s1, wt, s2, nt), row.
  split; [reflexivity|]. split; [exact Hrows|]. split; [exact Hd|]. exact Ht.
Defined.

(** X24: in a rendering the row of an article holds, under the names
    of the columns, the article's source, title, author ("None" without
    one), link, description and publication time in the format
    "%d.%m.%Y %H:%M". *)
Theorem news_columns_hold_the_article_fields
    `{Builtins} `{Clib} (location_info : LocationInfoDTO)
    (articles : list NewsDTO) (i : nat) (article : NewsDTO)
    (info_table : PrettyTable) (s1 : string) (weather_table : PrettyTable)
    (s2 : string) (news_table : PrettyTable) :
  news location_info = Some articles ->
  articles !! i = Some article ->
  render location_info = Ok (info_table, s1, weather_table, s2, news_table) ->
  exists row,
    rows news_table !! i = Some row
    /\ column (field_names news_table) row "Источник" = Some (CStr (source article))
    /\ column (field_names news_table) row "Название" = Some (CStr (title article))
    /\ column (field_names news_table) row "Автор"
       = Some (CStr match author article with Some a => a | None => "None" end)
    /\ column (field_names news_table) row "Ссылка" = Some (CStr (url article))
    /\ column (field_names news_table) row "Описание"
       = Some (CStr (news_description article))
    /\ column (field_names news_table) row "Дата публикации"
       = Some (CStr (strftime (published_at article) "%d.%m.%Y %H:%M")).
Proof.
  intros Hnews Hi. rewrite render_steps, Hnews. intros E.
  destruct (first_item _) as [tz|]; [|discriminate]. cbn in E.
  destruct (_format_currency_rates location_info) as [rt|]; [|discriminate].
  cbn in E. injection E as <- <- <- <- <-. cbn [rows field_names].
  exists (news_row article). split; [rewrite list_lookup_fmap, Hi; reflexivity|].
  repeat split.
Qed.

Lemma news_columns_hold_the_article_fields_witness :
  exists t row,
    @render plain_builtins plain_clib (sample_info (Some [sample_article])) = Ok t
    /\ rows t.2 !! 0%nat = Some row
    /\ column (field_names t.2) row "Источник" = Some (CStr "Adevarul.ro")
    /\ column (field_names t.2) row "Автор" = Some (CStr "Ion Gaidău")
    /\ column (field_names t.2) row "Дата публикации" = Some (CStr "30.03.2023 12:42").
Proof.
  destruct (@render plain_builtins plain_clib (sample_info (Some [sample_article])))
    as [[[[[it s1] wt] s2] nt]|e] eqn:E; [|vm_compute in E; discriminate E].
  destruct (@news_columns_hold_the_article_fields plain_builtins plain_clib
              (sample_info (Some [sample_article])) [sample_article] 0 sample_article
              it s1 wt s2 nt eq_refl eq_refl E)
    as (row & Hrow & Hs & _ & Ha & _ & _ & Hd).
  exists (it, s1, wt, s2, nt), row.
  split; [reflexivity|]. split; [exact Hrow|]. split; [exact Hs|].
  split; [exact Ha | exact Hd].
Defined.
